(** * Fal API Flux node: a shallow embedding of [modules/fal_flux_node.py]

    The module defines one ComfyUI node, [FalAPIFluxNode].  Its constructor
    reads the API key from [config.ini] and exports it through [os.environ];
    [generate] builds the request payload, submits it to fal.ai, and decodes
    every returned image descriptor into a float tensor.

    Python values that cross the module boundary are JSON values; dictionaries
    are [gmap]s; exceptions are data; [logger] calls are recorded in a log that
    every computation carries along.  The libraries the module calls
    (fal_client, requests, base64, Pillow's decoders) are parameters of the
    development, gathered in the class [Externals]; NumPy's array operations
    that the module applies to its own buffers are written out: float64
    arithmetic is that of the primitive floats, float32 arithmetic that of
    [SpecFloat] at precision 24. *)

From Stdlib Require Import ZArith String List Bool Lia.
From Stdlib Require Import Floats.SpecFloat Floats.PrimFloat Floats.FloatOps.
From Stdlib Require Import Numbers.Cyclic.Int63.Uint63.
From Stdlib Require Import Strings.Byte Strings.Ascii.
From stdpp Require Import gmap strings list fin_maps pretty.

Set Warnings "-register-all".
Open Scope Z_scope.

(** ** Python runtime: exceptions, outcomes, JSON values *)

Module Py.

(** Exception classes, as far as the [except] clauses of the module tell them
    apart.  [binascii.Error] and [UnicodeError] are subclasses of
    [ValueError]; every class below derives from [Exception]. *)
Inductive exn_class :=
 | ValueError | TypeError | AttributeError | KeyError | IndexError
 | RuntimeError | OSError | RequestException | OtherException.

(** An exception object: its class, [str(e)], its [response] attribute, and
    [__cause__] as set by [raise ... from e].  The [response] is [None] when
    the object has no such attribute, [Some None] when it has one without a
    text ([e.response] is [None], as for a connection error of requests), and
    [Some (Some text)] when [e.response.text] is [text]. *)
Inductive exn :=
 | Exn (cls : exn_class) (msg : string) (response : option (option string))
       (cause : option exn).

Definition exn_cls (e : exn) : exn_class := let 'Exn c _ _ _ := e in c.
Definition str (e : exn) : string := let 'Exn _ m _ _ := e in m.
Definition exn_response (e : exn) : option (option string) :=
  let 'Exn _ _ r _ := e in r.

(** [ValueError(msg)] and the like: a fresh exception without response or
    cause. *)
Definition new_exn (c : exn_class) (m : string) : exn := Exn c m None None.

Definition exn_class_eqb (a b : exn_class) : bool :=
  match a, b with
  | ValueError, ValueError | TypeError, TypeError
  | AttributeError, AttributeError | KeyError, KeyError
  | IndexError, IndexError | RuntimeError, RuntimeError | OSError, OSError
  | RequestException, RequestException
  | OtherException, OtherException => true
  | _, _ => false
  end.

(** [isinstance(e, c)] for the classes above. *)
Definition isinstance_exn (e : exn) (c : exn_class) : bool :=
  exn_class_eqb (exn_cls e) c.

(** The outcome of evaluating an expression: a value or a raised exception. *)
Inductive result (A : Type) :=
 | Ok (a : A)
 | Raise (e : exn).
Arguments Ok {A} a.
Arguments Raise {A} e.

(** JSON values: what fal.ai returns, what the payload holds, and what the
    host passes as LoRA configurations. *)
Inductive json :=
 | JNull
 | JBool (b : bool)
 | JInt (z : Z)
 | JFloat (f : float)
 | JStr (s : string)
 | JList (l : list json)
 | JDict (d : gmap string json).

(** Python truthiness, [bool(v)]. *)
Definition truthy (v : json) : bool :=
  match v with
  | JNull => false
  | JBool b => b
  | JInt z => negb (z =? 0)
  | JFloat f => match Prim2SF f with S754_zero _ => false | _ => true end
  | JStr s => negb (String.eqb s "")
  | JList l => match l with [] => false | _ => true end
  | JDict d => negb (bool_decide (d = ∅))
  end.

(** [iter(v)]: lists yield their items, strings their characters and
    dictionaries their keys (here in the order of the map, not of insertion);
    the other values are not iterable. *)
Definition py_iter (v : json) : result (list json) :=
  match v with
  | JList l => Ok l
  | JStr s => Ok ((λ c, JStr (String c EmptyString)) <$> list_ascii_of_string s)
  | JDict d => Ok ((λ kv, JStr kv.1) <$> map_to_list d)
  | _ => Raise (new_exn TypeError "object is not iterable")
  end.

End Py.
Export Py.

(** ** Logging and the computation monad *)

Module Log.

(** One constructor per [logger] call of the module; a record keeps the values
    the f-string interpolates instead of the formatted text. *)
Inductive message :=
 | RequestPayload (arguments : gmap string json)
 | ApiResponse (result : gmap string json)
 | ApiErrorDetails (text : string)
 | ApiErrorResponse (text : string)
 | NoImagesGenerated
 | ProcessingImage (index : nat) (img_info : json)
 | InvalidImageInfo (index : nat)
 | ImageURL (head : json)
 | SplitFailed (index : nat)
 | DownloadFailed (index : nat) (text : string)
 | FirstBytes (head : list byte)
 | OpenedImage (size : nat * nat) (mode : string)
 | OpenFailed (text : string)
 | RawPixelShape (shape : list nat)
 | ProcessFailed (index : nat) (text : string)
 | NoneProcessed
 | Returning (count : nat) (shape : list nat).

Inductive level := DEBUG | ERROR.

Definition record : Type := level * message.

End Log.

(** A computation yields a value or raises, and appends records to the log.
    The log is write-only: no computation of the module reads it back. *)
Definition M (A : Type) : Type := result A * list Log.record.

Definition ret {A} (a : A) : M A := (Ok a, []).
Definition raise {A} (e : exn) : M A := (Raise e, []).
Definition lift {A} (r : result A) : M A := (r, []).

Definition bind {A B} (m : M A) (k : A → M B) : M B :=
  match m with
  | (Ok a, l) => let '(r, l') := k a in (r, l ++ l')
  | (Raise e, l) => (Raise e, l)
  end.

(** [try: m except Exception as e: h e]. An exception raised by the handler
    itself propagates. *)
Definition try_except {A} (m : M A) (h : exn → M A) : M A :=
  match m with
  | (Ok a, l) => (Ok a, l)
  | (Raise e, l) => let '(r, l') := h e in (r, l ++ l')
  end.

(** [try: m except c as e: h e]: exceptions of other classes pass through. *)
Definition try_except_class {A} (c : exn_class) (m : M A) (h : exn → M A) : M A :=
  try_except m (λ e, if isinstance_exn e c then h e else raise e).

Definition logger_debug (msg : Log.message) : M unit := (Ok (), [(Log.DEBUG, msg)]).
Definition logger_error (msg : Log.message) : M unit := (Ok (), [(Log.ERROR, msg)]).

Declare Scope py_scope.
Delimit Scope py_scope with py.
Notation "x <~ m ;; k" := (bind m (λ x, k))
  (at level 20, m at level 99, k at level 200, only parsing) : py_scope.
Notation "m ;;; k" := (bind m (λ _, k))
  (at level 100, k at level 200, right associativity, only parsing) : py_scope.
Open Scope py_scope.

Definition value {A} (m : M A) : result A := m.1.
Definition log_of {A} (m : M A) : list Log.record := m.2.

(** ** Strings: the two [str] methods the module calls *)

(** [s.startswith(p)]. *)
Definition startswith (s p : string) : bool := String.prefix p s.

(** [s.split(",", 1)]: cut at the first comma, if there is one. *)
Fixpoint split_comma_once (s : string) : list string :=
  match s with
  | EmptyString => [EmptyString]
  | String c rest =>
      if Ascii.eqb c ","%char then [EmptyString; rest]
      else match split_comma_once rest with
           | hd :: tl => String c hd :: tl
           | [] => [String c EmptyString]
           end
  end.

(** [a, b = parts]: tuple unpacking of a list into two names. *)
Definition unpack2 (parts : list string) : result (string * string) :=
  match parts with
  | [a; b] => Ok (a, b)
  | [] | [_] =>
      Raise (new_exn ValueError "not enough values to unpack (expected 2)")
  | _ => Raise (new_exn ValueError "too many values to unpack (expected 2)")
  end.

(** ** NumPy: arrays of [uint8] samples and IEEE floats *)

Module Np.

Record ndarray (A : Type) := NdArray { shape : list nat; data : list A }.
Arguments NdArray {A} shape data.
Arguments shape {A} n.
Arguments data {A} n.

(** The value of a [uint8] sample, and the wrap-around of an integer into one. *)
Definition u8 (b : byte) : Z := Z.of_N (Byte.to_N b).
Definition to_u8 (z : Z) : byte :=
  match Byte.of_N (Z.to_N (z mod 256)) with Some b => b | None => x00 end.

(** [binary64] arithmetic: the primitive floats.  [f64_of_Z] converts an
    integer between 0 and 2^53, exactly. *)
Definition f64_of_Z (z : Z) : float := PrimFloat.of_uint63 (Uint63.of_Z z).
Definition f64_div : float → float → float := PrimFloat.div.
Definition f64_mul : float → float → float := PrimFloat.mul.

(** [binary32] arithmetic. *)
Definition f32_of_Z (z : Z) : spec_float := binary_normalize 24 128 z 0 false.
Definition f32_div : spec_float → spec_float → spec_float := SFdiv 24 128.

(** [np.frombuffer(buf, dtype=np.uint8)]: always one-dimensional. *)
Definition frombuffer (buf : list byte) : ndarray byte :=
  NdArray [length buf] buf.

Definition prod_shape (s : list nat) : nat := foldr Nat.mul 1%nat s.

(** [a.reshape(s)]. *)
Definition reshape {A} (a : ndarray A) (s : list nat) : result (ndarray A) :=
  if decide (prod_shape s = length (data a)) then Ok (NdArray s (data a))
  else Raise (new_exn ValueError "cannot reshape array").

(** [a.min()] and [a.max()]: reductions without identity. *)
Definition u8_min (x y : byte) : byte := if u8 y <? u8 x then y else x.
Definition u8_max (x y : byte) : byte := if u8 x <? u8 y then y else x.

Definition min (a : ndarray byte) : result byte :=
  match data a with
  | [] => Raise (new_exn ValueError
            "zero-size array to reduction operation minimum which has no identity")
  | x :: l => Ok (foldl u8_min x l)
  end.

Definition max (a : ndarray byte) : result byte :=
  match data a with
  | [] => Raise (new_exn ValueError
            "zero-size array to reduction operation maximum which has no identity")
  | x :: l => Ok (foldl u8_max x l)
  end.

(** [a - m] in [uint8], for an array or for two scalars: wraps modulo 256. *)
Definition u8_sub (x m : byte) : byte := to_u8 (u8 x - u8 m).
Definition subtract (a : ndarray byte) (m : byte) : ndarray byte :=
  NdArray (shape a) ((λ x, u8_sub x m) <$> data a).

(** [a / d] with both operands [uint8]: true division, computed in float64.
    Division by zero gives inf or nan (and a warning), not an exception. *)
Definition true_divide (a : ndarray byte) (d : byte) : ndarray float :=
  NdArray (shape a) ((λ x, f64_div (f64_of_Z (u8 x)) (f64_of_Z (u8 d))) <$> data a).

(** [a * 255] on a float64 array. *)
Definition multiply (a : ndarray float) (k : Z) : ndarray float :=
  NdArray (shape a) ((λ x, f64_mul x (f64_of_Z k)) <$> data a).

(** The C cast from float64 to [uint8] truncates toward zero.  It is defined
    when the truncated value fits in 0..255; for nan, infinities and the
    other values the result is whatever the platform produces, [undef]. *)
Definition f64_trunc (f : spec_float) : Z :=
  match f with
  | S754_finite s m e =>
      let t := Z.shiftl (Z.pos m) e in
      if s then - t else t
  | _ => 0
  end.

Definition representable_u8 (f : spec_float) : bool :=
  match f with
  | S754_zero _ => true
  | S754_finite _ _ _ => (0 <=? f64_trunc f) && (f64_trunc f <=? 255)
  | _ => false
  end.

Definition f64_to_u8 (undef : spec_float → byte) (f : float) : byte :=
  let v := Prim2SF f in
  if representable_u8 v then to_u8 (f64_trunc v) else undef v.

(** [(a / d) * 255] in float64 for two integers: one sample of the
    normalisation, before the cast. *)
Definition scale255 (a d : Z) : float :=
  f64_mul (f64_div (f64_of_Z a) (f64_of_Z d)) (f64_of_Z 255).

(** The check that, for a divisor [d] in 1..255 and [a] in 0..d, the cast of
    [scale255 a d] is defined and equals the integer quotient [a * 255 / d];
    and the check of a property on all pairs below [n]. *)
Definition normalisation_entry (a d : Z) : bool :=
  if (d <? a) || (d =? 0) then true
  else
    let v := Prim2SF (scale255 a d) in
    representable_u8 v && (f64_trunc v =? a * 255 / d).

Definition zrange (n : nat) : list Z := Z.of_nat <$> seq 0 n.

Definition forall_pairs (n : nat) (P : Z → Z → bool) : bool :=
  forallb (λ d, forallb (λ a, P a d) (zrange n)) (zrange n).

(** [a.astype(np.uint8)] on a float64 array. *)
Definition astype_uint8 (undef : spec_float → byte) (a : ndarray float)
  : ndarray byte :=
  NdArray (shape a) (f64_to_u8 undef <$> data a).

(** [a.astype(np.float32) / 255.0] on a [uint8] array. *)
Definition astype_float32_div255 (a : ndarray byte) : ndarray spec_float :=
  NdArray (shape a) ((λ x, f32_div (f32_of_Z (u8 x)) (f32_of_Z 255)) <$> data a).

End Np.

(** ** Pillow: images as the module sees them *)

Module PIL.

(** Pixel storage of an image: samples already in memory, or a file whose
    pixel data is decoded on first access ([Image.open] is lazy). *)
Inductive pixel_access :=
 | Loaded (samples : list byte)
 | Deferred (fp : list byte).

(** [size] is (width, height), as in Pillow. *)
Record Image := MkImage { mode : string; size : nat * nat; im : pixel_access }.

(** [len(img.getbands())] for Pillow's modes. *)
Definition bands (m : string) : nat :=
  if bool_decide (m ∈ ["RGB"; "YCbCr"; "LAB"; "HSV"]) then 3
  else if bool_decide (m ∈ ["RGBA"; "CMYK"; "RGBX"; "RGBa"]) then 4
  else if bool_decide (m ∈ ["LA"; "PA"; "La"]) then 2
  else 1.

(** [Image.fromarray(obj, mode)] for a [uint8] array and a single-band
    mode: at most two dimensions are accepted; a one-dimensional array of
    [n] samples becomes an image of width 1 and height [n]. *)
Definition fromarray (obj : Np.ndarray byte) (m : string) : result Image :=
  match Np.shape obj with
  | [] => Raise (new_exn IndexError "tuple index out of range")
  | [n] => Ok (MkImage m (1, n)%nat (Loaded (Np.data obj)))
  | [h; w] => Ok (MkImage m (w, h) (Loaded (Np.data obj)))
  | _ => Raise (new_exn ValueError "Too many dimensions")
  end.

(** The L to RGB conversion: the grey sample is copied into each band. *)
Definition l2rgb (samples : list byte) : list byte :=
  samples ≫= (λ v, [v; v; v]).

End PIL.

(** ** The libraries behind the module *)

(** What the module calls and does not define.  Each function returns a value
    or the exception the library raised.
    - [fal_client_submit app arguments] is [fal_client.submit(app,
      arguments=arguments)] followed by [handler.get()]: the parsed JSON
      object of the response;
    - [requests_get url] is [requests.get(url)], [raise_for_status()] and
      [.content];
    - [b64decode s] is [base64.b64decode(s)];
    - [Image_open data] is [Image.open(io.BytesIO(data))];
    - [ImageFile_load img] decodes the pixel data of a lazily opened file;
    - [ImagingCore_convert from to samples] transcodes pixel data between
      modes;
    - [undefined_cast f] is what the platform's float to [uint8] cast returns
      where C leaves it undefined. *)
Class Externals := {
  fal_client_submit : string → gmap string json → result (gmap string json);
  requests_get : string → result (list byte);
  b64decode : string → result (list byte);
  Image_open : list byte → result PIL.Image;
  ImageFile_load : PIL.Image → result (list byte);
  ImagingCore_convert : string → string → list byte → result (list byte);
  undefined_cast : spec_float → byte
}.

Section Pillow.
Context `{Externals}.

(** [img.load()]: the samples of the image. *)
Definition Image_load (img : PIL.Image) : result (list byte) :=
  match PIL.im img with
  | PIL.Loaded samples => Ok samples
  | PIL.Deferred _ => ImageFile_load img
  end.

(** [img.convert(m)]: a new in-memory image of mode [m] and the same size. *)
Definition Image_convert (img : PIL.Image) (m : string) : result PIL.Image :=
  match Image_load img with
  | Raise e => Raise e
  | Ok samples =>
      let converted :=
        if bool_decide (PIL.mode img = "L" ∧ m = "RGB") then Ok (PIL.l2rgb samples)
        else ImagingCore_convert (PIL.mode img) m samples in
      match converted with
      | Raise e => Raise e
      | Ok samples' => Ok (PIL.MkImage m (PIL.size img) (PIL.Loaded samples'))
      end
  end.

(** [np.array(img)]: shape (height, width) for one band, (height, width,
    bands) otherwise.  The samples are bytes, which is exact for the 8-bit
    modes, RGB among them. *)
Definition np_array (img : PIL.Image) : result (Np.ndarray byte) :=
  match Image_load img with
  | Raise e => Raise e
  | Ok samples =>
      let '(w, h) := PIL.size img in
      let b := PIL.bands (PIL.mode img) in
      Ok (Np.NdArray (if decide (b = 1%nat) then [h; w] else [h; w; b]) samples)
  end.

End Pillow.

(** ** The configuration source and the process environment *)

(** A parsed [config.ini]: the DEFAULT section and the named sections.
    Option values are the strings [ConfigParser.get] would return. *)
Record ConfigParser := MkConfig {
  defaults : gmap string string;
  sections : gmap string (gmap string string)
}.

(** [config.get(section, key, fallback=None)]. *)
Definition config_get (config : ConfigParser) (section key : string)
  : option string :=
  match sections config !! section with
  | None => None
  | Some d =>
      match d !! key with
      | Some v => Some v
      | None => defaults config !! key
      end
  end.

(** The text holds a NUL character. *)
Fixpoint has_nul (s : string) : bool :=
  match s with
  | EmptyString => false
  | String c rest => Ascii.eqb c Ascii.zero || has_nul rest
  end.

(** [os.environ[k] = v]: the value must be a [str], and one without NUL. *)
Definition environ_setitem (environ : gmap string string) (k : string)
    (v : option string) : result (gmap string string) :=
  match v with
  | Some s =>
      if has_nul s then Raise (new_exn ValueError "embedded null byte")
      else Ok (<[k := s]> environ)
  | None => Raise (new_exn TypeError "str expected, not NoneType")
  end.

(** ** The node *)

(** [torch.from_numpy] keeps shape and values: a tensor is the float array. *)
Definition Tensor : Type := Np.ndarray spec_float.

Record FalAPIFluxNode := MkNode { api_key : option string }.

(** [get_api_key]: [config_file] is the parsed [config.ini] next to the
    package, [None] when [os.path.exists] says the file is not there. *)
Definition get_api_key (config_file : option ConfigParser) : option string :=
  match config_file with
  | Some config => config_get config "falai" "api_key"
  | None => None
  end.

(** [__init__]: returns the node and the updated [os.environ]. *)
Definition __init__ (config_file : option ConfigParser)
    (environ : gmap string string)
  : result (FalAPIFluxNode * gmap string string) :=
  let key := get_api_key config_file in
  match environ_setitem environ "FAL_KEY" key with
  | Raise e => Raise e
  | Ok environ' => Ok (MkNode key, environ')
  end.

(** [not self.api_key]. *)
Definition api_key_missing (self : FalAPIFluxNode) : bool :=
  match api_key self with
  | None => true
  | Some s => String.eqb s ""
  end.

(** Lines 70 to 74: the LoRA slots [lora_1] .. [lora_5] of [kwargs], in slot
    order, keeping the truthy ones. *)
Definition lora_list (kwargs : gmap string json) : list json :=
  foldl (λ acc i,
           match kwargs !! ("lora_" +:+ pretty i) with
           | Some lora_config => if truthy lora_config then acc ++ [lora_config] else acc
           | None => acc
           end)
        [] (seq 1 5).

(** Lines 58 to 77: the request payload. *)
Definition arguments (prompt image_size : string) (num_inference_steps : Z)
    (guidance_scale : float) (num_images : Z) (seed : option Z)
    (kwargs : gmap string json) : gmap string json :=
  let arguments : gmap string json :=
    <["enable_safety_checker" := JBool true]>
    (<["num_images" := JInt num_images]>
    (<["guidance_scale" := JFloat guidance_scale]>
    (<["num_inference_steps" := JInt num_inference_steps]>
    (<["image_size" := JStr image_size]>
    (<["prompt" := JStr prompt]> ∅))))) in
  let arguments :=
    match seed with
    | Some s => if negb (s =? 0) then <["seed" := JInt s]> arguments else arguments
    | None => arguments
    end in
  match lora_list kwargs with
  | [] => arguments
  | loras => <["loras" := JList loras]> arguments
  end.

(** The test of line 102: not a dict, no ["url"], or a falsy url. *)
Definition invalid_image_info (img_info : json) : bool :=
  match img_info with
  | JDict d =>
      match d !! "url" with
      | Some url => negb (truthy url)
      | None => true
      end
  | _ => true
  end.

(** [img_info["url"]], read after the test above has passed. *)
Definition image_url (img_info : json) : result json :=
  match img_info with
  | JDict d =>
      match d !! "url" with
      | Some url => Ok url
      | None => Raise (new_exn KeyError "'url'")
      end
  | _ => Raise (new_exn TypeError "object is not subscriptable")
  end.

Section Generate.
Context `{Externals}.

(** Lines 109 to 125: the bytes behind an image URL; [None] stands for the
    [continue] of the two handlers. *)
Definition fetch_image_data (index : nat) (img_url : string)
  : M (option (list byte)) :=
  if startswith img_url "data:image" then
    try_except_class ValueError
      (parts <~ lift (unpack2 (split_comma_once img_url)) ;;
       img_data <~ lift (b64decode parts.2) ;;
       ret (Some img_data))
      (λ _, logger_error (Log.SplitFailed index) ;;; ret None)
  else
    try_except_class RequestException
      (content <~ lift (requests_get img_url) ;;
       ret (Some content))
      (λ e, logger_error (Log.DownloadFailed index (str e)) ;;; ret None).

(** Lines 137 to 147: the bytes read as raw 8-bit samples, reshaped when
    there are 1024 of them, and stretched to the range 0..255. *)
Definition raw_pixel_array (img_data : list byte) : M (Np.ndarray byte) :=
  let img_np := Np.frombuffer img_data in
  logger_debug (Log.RawPixelShape (Np.shape img_np)) ;;;
  img_np <~ (if decide (Np.shape img_np = [1024%nat]) then
               lift (Np.reshape img_np [32%nat; 32%nat])
             else if decide (Np.shape img_np = [1%nat; 1%nat; 1024%nat]) then
               lift (Np.reshape img_np [32%nat; 32%nat])
             else ret img_np) ;;
  lo <~ lift (Np.min img_np) ;;
  let shifted := Np.subtract img_np lo in
  hi <~ lift (Np.max img_np) ;;
  lo' <~ lift (Np.min img_np) ;;
  let span := Np.u8_sub hi lo' in
  ret (Np.astype_uint8 undefined_cast
         (Np.multiply (Np.true_divide shifted span) 255)).

(** Lines 131 to 150: open the bytes as an image file; when that fails, build
    a greyscale image from the raw samples and convert it to RGB. *)
Definition open_image (img_data : list byte) : M PIL.Image :=
  try_except
    (img <~ lift (Image_open img_data) ;;
     logger_debug (Log.OpenedImage (PIL.size img) (PIL.mode img)) ;;;
     ret img)
    (λ e,
     logger_error (Log.OpenFailed (str e)) ;;;
     img_np <~ raw_pixel_array img_data ;;
     img <~ lift (PIL.fromarray img_np "L") ;;
     lift (Image_convert img "RGB")).

(** Lines 153 to 160: RGB image, float32 array scaled by 1/255, tensor. *)
Definition to_tensor (img : PIL.Image) : M Tensor :=
  img <~ (if negb (String.eqb (PIL.mode img) "RGB") then
            lift (Image_convert img "RGB")
          else ret img) ;;
  img_np <~ lift (np_array img) ;;
  ret (Np.astype_float32_div255 img_np).

(** Lines 100 to 164: the body of the loop for one descriptor.  [Some t] is
    the tensor appended to [output_images]; [None] means nothing was
    appended, by [continue] or by the handler of line 163.  A truthy url
    that is not a [str] fails at the slice of line 107 or, for a list, at
    [startswith]. *)
Definition process_image (index : nat) (img_info : json) : M (option Tensor) :=
  try_except
    (logger_debug (Log.ProcessingImage index img_info) ;;;
     if invalid_image_info img_info then
       logger_error (Log.InvalidImageInfo index) ;;; ret None
     else
       img_url <~ lift (image_url img_info) ;;
       match img_url with
       | JStr url =>
           logger_debug (Log.ImageURL (JStr (substring 0 100 url))) ;;;
           fetched <~ fetch_image_data index url ;;
           match fetched with
           | None => ret None
           | Some img_data =>
               logger_debug (Log.FirstBytes (take 20 img_data)) ;;;
               img <~ open_image img_data ;;
               img_tensor <~ to_tensor img ;;
               ret (Some img_tensor)
           end
       | JList l =>
           logger_debug (Log.ImageURL (JList (take 100 l))) ;;;
           raise (new_exn AttributeError "'list' object has no attribute 'startswith'")
       | _ => raise (new_exn TypeError "object is not subscriptable")
       end)
    (λ e, logger_error (Log.ProcessFailed index (str e)) ;;; ret None).

(** Lines 98 to 164: the loop over [enumerate(result["images"])]. *)
Fixpoint process_images (index : nat) (images : list json)
    (output_images : list Tensor) : M (list Tensor) :=
  match images with
  | [] => ret output_images
  | img_info :: rest =>
      processed <~ process_image index img_info ;;
      process_images (S index) rest
        (match processed with
         | Some img_tensor => output_images ++ [img_tensor]
         | None => output_images
         end)
  end.

(** The test of line 94: no ["images"] key, or a falsy value under it. *)
Definition no_images (result : gmap string json) : bool :=
  match result !! "images" with
  | Some images => negb (truthy images)
  | None => true
  end.

(** [generate]; the one-element tuple it returns is represented by its
    element. *)
Definition generate (self : FalAPIFluxNode) (prompt image_size : string)
    (num_inference_steps : Z) (guidance_scale : float) (num_images : Z)
    (seed : option Z) (kwargs : gmap string json) : M (list Tensor) :=
  if api_key_missing self then
    raise (new_exn ValueError "API key is not set. Please check your config.ini file.")
  else
    let arguments :=
      arguments prompt image_size num_inference_steps guidance_scale
        num_images seed kwargs in
    logger_debug (Log.RequestPayload arguments) ;;;
    result <~ try_except
                (result <~ lift (fal_client_submit "fal-ai/flux-lora" arguments) ;;
                 logger_debug (Log.ApiResponse result) ;;;
                 ret result)
                (λ e,
                 logger_error (Log.ApiErrorDetails (str e)) ;;;
                 match exn_response e with
                 | Some (Some text) => logger_error (Log.ApiErrorResponse text)
                 | Some None =>
                     raise (new_exn AttributeError
                              "'NoneType' object has no attribute 'text'")
                 | None => ret ()
                 end ;;;
                 raise (Exn RuntimeError
                          ("An error occurred when calling the fal.ai API: " +:+ str e)
                          None (Some e))) ;;
    if no_images result then
      logger_error Log.NoImagesGenerated ;;;
      raise (new_exn RuntimeError "No images were generated by the API.")
    else
      images <~ lift (py_iter (default JNull (result !! "images"))) ;;
      output_images <~ process_images 0 images [] ;;
      match output_images with
      | [] =>
          logger_error Log.NoneProcessed ;;;
          raise (new_exn RuntimeError "Failed to process any of the generated images.")
      | first :: _ =>
          logger_debug (Log.Returning (length output_images) (Np.shape first)) ;;;
          ret output_images
      end.

End Generate.

(** ** A sample instance of the libraries

    A small, executable stand-in for the libraries, used to run the module on
    concrete inputs: a strict base64 decoder, an HTTP client without network,
    and an image format made of a magic byte ([R] for RGB, [G] for
    greyscale), a width byte, a height byte and the samples. *)

Module Sample.

Definition b64_digit (c : ascii) : option Z :=
  let n := Z.of_nat (nat_of_ascii c) in
  if (65 <=? n) && (n <=? 90) then Some (n - 65)
  else if (97 <=? n) && (n <=? 122) then Some (n - 71)
  else if (48 <=? n) && (n <=? 57) then Some (n + 4)
  else if n =? 43 then Some 62
  else if n =? 47 then Some 63
  else None.

Definition b64_error : exn := new_exn ValueError "Incorrect padding".

(** Four characters at a time; [=] only as padding of the last group. *)
Fixpoint b64_groups (fuel : nat) (s : string) : result (list byte) :=
  match fuel, s with
  | _, EmptyString => Ok []
  | S fuel', String c1 (String c2 (String c3 (String c4 rest))) =>
      match b64_digit c1, b64_digit c2 with
      | Some d1, Some d2 =>
          let pad3 := Ascii.eqb c3 "="%char in
          let pad4 := Ascii.eqb c4 "="%char in
          let d3 := default 0 (b64_digit c3) in
          let d4 := default 0 (b64_digit c4) in
          let n := d1 * 262144 + d2 * 4096 + d3 * 64 + d4 in
          let b1 := Np.to_u8 (n / 65536) in
          let b2 := Np.to_u8 (n / 256) in
          let b3 := Np.to_u8 n in
          if pad3 then
            if pad4 && String.eqb rest "" then Ok [b1] else Raise b64_error
          else if pad4 then
            match b64_digit c3 with
            | Some _ => if String.eqb rest "" then Ok [b1; b2] else Raise b64_error
            | None => Raise b64_error
            end
          else
            match b64_digit c3, b64_digit c4, b64_groups fuel' rest with
            | Some _, Some _, Ok tl => Ok (b1 :: b2 :: b3 :: tl)
            | _, _, _ => Raise b64_error
            end
      | _, _ => Raise b64_error
      end
  | _, _ => Raise b64_error
  end.

Definition base64_decode (s : string) : result (list byte) :=
  b64_groups (String.length s) s.

Definition http_get (url : string) : result (list byte) :=
  Raise (Exn RequestException "Invalid URL: No scheme supplied" None None).

Definition open_image_file (img_data : list byte) : result PIL.Image :=
  match img_data with
  | magic :: w :: h :: _ =>
      let size := (N.to_nat (Byte.to_N w), N.to_nat (Byte.to_N h)) in
      if Byte.eqb magic "R"%byte then Ok (PIL.MkImage "RGB" size (PIL.Deferred img_data))
      else if Byte.eqb magic "G"%byte then Ok (PIL.MkImage "L" size (PIL.Deferred img_data))
      else Raise (new_exn OSError "cannot identify image file")
  | _ => Raise (new_exn OSError "cannot identify image file")
  end.

Definition load_image_file (img : PIL.Image) : result (list byte) :=
  match PIL.im img with
  | PIL.Loaded samples => Ok samples
  | PIL.Deferred fp =>
      let samples := drop 3 fp in
      let '(w, h) := PIL.size img in
      if decide (length samples = (w * h * PIL.bands (PIL.mode img))%nat) then Ok samples
      else Raise (new_exn OSError "image file is truncated")
  end.

Definition convert_samples (from to : string) (samples : list byte)
  : result (list byte) :=
  Raise (new_exn ValueError "conversion not supported").

(** The libraries of a run in which fal.ai answers [response]. *)
Definition externals (response : result (gmap string json)) : Externals := {|
  fal_client_submit := λ _ _, response;
  requests_get := http_get;
  b64decode := base64_decode;
  Image_open := open_image_file;
  ImageFile_load := load_image_file;
  ImagingCore_convert := convert_samples;
  undefined_cast := λ _, x00
|}.

(** A descriptor [{"url": url}]. *)
Definition descriptor (url : string) : json := JDict {[ "url" := JStr url ]}.

(** A 1x1 RGB image with the pixel (255, 0, 128), as a data URI. *)
Definition pixel_uri : string := "data:image/raw;base64,UgEB/wCA".

(** A 2x1 greyscale image with the samples 0 and 255. *)
Definition grey_uri : string := "data:image/raw;base64,RwIBAP8=".

(** A data URI without the comma that separates header and payload. *)
Definition malformed_uri : string := "data:image/png;base64".

Definition response_of (urls : list string) : gmap string json :=
  {[ "images" := JList (descriptor <$> urls) ]}.

Definition node : FalAPIFluxNode := MkNode (Some "key-123").


(** 1024 equal bytes. *)
Definition flat : list byte := replicate 1024 "*"%byte.

End Sample.

(** ** What one descriptor contributes *)

Section Outcome.
Context `{Externals}.

(** The tensor a descriptor adds to [output_images], if any: the value of the
    loop body, an exception counting as nothing (the body has none). *)
Definition decoded (img_info : json) : option Tensor :=
  match value (process_image 0 img_info) with
  | Ok processed => processed
  | Raise _ => None
  end.

(** The two generation errors raised for an empty result. *)
Definition empty_result_error (r : result (list Tensor)) : Prop :=
  r = Raise (new_exn RuntimeError "No images were generated by the API.") ∨
  r = Raise (new_exn RuntimeError "Failed to process any of the generated images.").

(** The url of a descriptor cannot be turned into bytes: a data URI without
    comma or with a payload base64 rejects, or a link the HTTP client fails
    on. *)
Definition url_fails (url : string) : Prop :=
  if startswith url "data:image" then
    match split_comma_once url with
    | [_; payload] => ∃ e, b64decode payload = Raise e
    | _ => True
    end
  else ∃ e, requests_get url = Raise e.

(** A descriptor that carries a valid image as a data URI: the url splits at a
    comma, the payload is base64, the bytes open as the image [img], and the
    pixel data of [img], read as RGB, is [samples]: three samples for each of
    the width times height pixels. *)
Definition valid_data_uri_image (img_info : json) (img : PIL.Image)
    (samples : list byte) : Prop :=
  ∃ d url header payload img_data,
    img_info = JDict d ∧ d !! "url" = Some (JStr url) ∧
    startswith url "data:image" = true ∧
    split_comma_once url = [header; payload] ∧
    b64decode payload = Ok img_data ∧
    Image_open img_data = Ok img ∧
    (if String.eqb (PIL.mode img) "RGB" then Image_load img = Ok samples
     else Image_convert img "RGB" =
            Ok (PIL.MkImage "RGB" (PIL.size img) (PIL.Loaded samples))) ∧
    length samples = ((PIL.size img).2 * (PIL.size img).1 * 3)%nat.

(** One sample of line 147, [(x - lo) / (hi - lo) * 255] cast to [uint8], for
    the minimum [lo] and the maximum [hi] of the buffer. *)
Definition stretched (lo hi x : byte) : byte :=
  Np.f64_to_u8 undefined_cast
    (Np.scale255 (Np.u8 (Np.u8_sub x lo)) (Np.u8 (Np.u8_sub hi lo))).

(** The shape of the array handed to [Image.fromarray] for a buffer of [n]
    bytes. *)
Definition raw_shape (n : nat) : list nat :=
  if decide (n = 1024%nat) then [32; 32]%nat else [n].

(** A float32 value between 0.0 and 1.0. *)
Definition in_unit_interval (f : spec_float) : Prop :=
  SFleb (S754_zero false) f = true ∧ SFleb f (Np.f32_of_Z 1) = true.

End Outcome.

(** ** The input schema *)

Module Schema.

(** The type descriptors of [INPUT_TYPES]: a string widget, a choice among
    names, a bounded integer, a bounded float, and the LoRA configuration
    socket. *)
Inductive input_type :=
 | STRING (multiline : bool)
 | COMBO (choices : list string)
 | INT (default min max : Z)
 | FLOAT (default min max : float)
 | LORA_CONFIG.

Record input_types := MkInputs {
  required : list (string * input_type);
  optional : list (string * input_type)
}.

(** The default of a numeric input lies between its bounds. *)
Definition default_in_range (t : input_type) : bool :=
  match t with
  | INT d lo hi => (lo <=? d) && (d <=? hi)
  | FLOAT d lo hi => PrimFloat.leb lo d && PrimFloat.leb d hi
  | _ => true
  end.

Definition is_lora (t : input_type) : bool :=
  match t with LORA_CONFIG => true | _ => false end.

End Schema.

(** [INPUT_TYPES], lines 22 to 40.  The float 0.1 is, as in Python, the
    nearest binary64 value. *)
#[warnings="-inexact-float"]
Definition INPUT_TYPES : Schema.input_types :=
  Schema.MkInputs
    [("prompt", Schema.STRING true);
     ("image_size",
      Schema.COMBO ["square_hd"; "square"; "portrait_4_3"; "portrait_16_9";
                    "landscape_4_3"; "landscape_16_9"]);
     ("num_inference_steps", Schema.INT 28 1 100);
     ("guidance_scale", Schema.FLOAT 3.5 0.1 20.0);
     ("num_images", Schema.INT 1 1 4)]
    [("seed", Schema.INT 0 0 18446744073709551615);
     ("lora_1", Schema.LORA_CONFIG);
     ("lora_2", Schema.LORA_CONFIG);
     ("lora_3", Schema.LORA_CONFIG);
     ("lora_4", Schema.LORA_CONFIG);
     ("lora_5", Schema.LORA_CONFIG)].

(** The keys [generate] reads from [kwargs]: [f"lora_{i}"] over
    [range(1, 6)]. *)
Definition lora_keys : list string := (λ i, "lora_" +:+ pretty i) <$> seq 1 5.

(** The keys a payload can hold. *)
Definition payload_keys : list string :=
  ["prompt"; "image_size"; "num_inference_steps"; "guidance_scale";
   "num_images"; "enable_safety_checker"; "seed"; "loras"].

(** ** Notions for the properties of the loop *)

(** The invariant of a returned tensor: three dimensions, the last of size 3,
    and every value between 0.0 and 1.0. *)
Definition tensor_ok (t : Tensor) : Prop :=
  (∃ h w, Np.shape t = [h; w; 3%nat]) ∧ Forall in_unit_interval (Np.data t).

(** The error records that report the loss of the descriptor at [index]. *)
Definition drop_record (index : nat) (msg : Log.message) : Prop :=
  msg = Log.InvalidImageInfo index ∨ msg = Log.SplitFailed index ∨
  (∃ text, msg = Log.DownloadFailed index text) ∨
  (∃ text, msg = Log.ProcessFailed index text).

(** The float32 value of a [uint8] sample divided by 255. *)
Definition unit_of_sample (v : byte) : spec_float :=
  Np.f32_div (Np.f32_of_Z (Np.u8 v)) (Np.f32_of_Z 255).

(** The sample whose quotient by 255 is nearest to a float32 value: the
    inverse of [unit_of_sample] on its range. *)
Definition sample_of_unit (f : spec_float) : byte :=
  match f with
  | S754_finite false m e =>
      Np.to_u8 ((2 * 255 * Z.pos m + 2 ^ (- e)) / 2 ^ (1 - e))
  | _ => "000"%byte
  end.

(** The text has no comma. *)
Fixpoint comma_free (s : string) : bool :=
  match s with
  | EmptyString => true
  | String c rest => negb (Ascii.eqb c ","%char) && comma_free rest
  end.


(** ** Reasoning about computations *)

Section Computations.
Context {A B : Type}.

Lemma value_bind (m : M A) (k : A → M B) :
  value (bind m k) = match value m with Ok a => value (k a) | Raise e => Raise e end.
Proof.
  destruct m as [[a|e] l]; cbn; [|reflexivity].
  destruct (k a) as [r l']; reflexivity.
Qed.

Lemma value_try_except (m : M A) (h : exn → M A) :
  value (try_except m h) = match value m with Ok a => Ok a | Raise e => value (h e) end.
Proof.
  destruct m as [[a|e] l]; cbn; [reflexivity|].
  destruct (h e) as [r l']; reflexivity.
Qed.

Lemma value_lift (r : result A) : value (lift r) = r.
Proof. reflexivity. Qed.

Lemma value_ret (a : A) : value (ret a) = Ok a.
Proof. reflexivity. Qed.

Lemma value_raise (e : exn) : value (@raise A e) = Raise e.
Proof. reflexivity. Qed.

(** Computations with equal values stay so under sequencing and handlers. *)
Lemma same_value_bind (m m' : M A) (k k' : A → M B) :
  value m = value m' → (∀ a, value (k a) = value (k' a)) →
  value (bind m k) = value (bind m' k').
Proof.
  intros Hm Hk. rewrite !value_bind, Hm.
  destruct (value m'); [apply Hk | reflexivity].
Qed.

Lemma same_value_try_except (m m' : M A) (h h' : exn → M A) :
  value m = value m' → (∀ e, value (h e) = value (h' e)) →
  value (try_except m h) = value (try_except m' h').
Proof.
  intros Hm Hh. rewrite !value_try_except, Hm.
  destruct (value m'); [reflexivity | apply Hh].
Qed.

(** A handler that never raises makes the whole [try] statement total. *)
Lemma try_except_total (m : M A) (h : exn → M A) :
  (∀ e, ∃ a, value (h e) = Ok a) → ∃ a, value (try_except m h) = Ok a.
Proof.
  intros Hh. rewrite value_try_except.
  destruct (value m) as [a|e]; [by exists a | apply Hh].
Qed.

End Computations.

Lemma value_logger_debug msg : value (logger_debug msg) = Ok ().
Proof. reflexivity. Qed.

Lemma value_logger_error msg : value (logger_error msg) = Ok ().
Proof. reflexivity. Qed.

Create Rewrite HintDb py_value.
#[local] Hint Rewrite @value_bind @value_try_except @value_lift @value_ret
  @value_raise value_logger_debug value_logger_error : py_value.

Ltac same_value :=
  repeat first
    [ reflexivity
    | apply same_value_try_except; [|intros]
    | apply same_value_bind; [|intros]
    | progress unfold try_except_class
    | case_match ].

(** ** The loop body and the loop *)

Section Loop.
Context `{Externals}.

Lemma fetch_image_data_index i j url :
  value (fetch_image_data i url) = value (fetch_image_data j url).
Proof. unfold fetch_image_data. same_value. Qed.

(** The value of the loop body does not depend on the position of the
    descriptor in the response: the index only reaches the log. *)
Lemma process_image_index i j img_info :
  value (process_image i img_info) = value (process_image j img_info).
Proof.
  unfold process_image. same_value.
  apply fetch_image_data_index.
Qed.

(** No exception leaves the loop body. *)
Lemma process_image_total i img_info :
  ∃ processed, value (process_image i img_info) = Ok processed.
Proof.
  unfold process_image. apply try_except_total.
  intros e. exists None. reflexivity.
Qed.

Lemma process_image_decoded i img_info :
  value (process_image i img_info) = Ok (decoded img_info).
Proof.
  unfold decoded. rewrite (process_image_index 0 i).
  destruct (process_image_total i img_info) as [o ->]. reflexivity.
Qed.

(** The loop returns the accumulator extended by the tensors of the
    descriptors that decode, in response order. *)
Lemma process_images_value images : ∀ index output_images,
  value (process_images index images output_images) =
  Ok (output_images ++ omap decoded images).
Proof.
  induction images as [|img_info rest IH]; intros index output_images; cbn.
  - by rewrite app_nil_r.
  - rewrite value_bind, process_image_decoded, IH.
    destruct (decoded img_info); [|reflexivity].
    by rewrite <- app_assoc.
Qed.

End Loop.

(** ** [generate] on a response *)

Section GenerateValue.
Context `{Externals}.
Variables (self : FalAPIFluxNode) (prompt image_size : string)
  (num_inference_steps : Z) (guidance_scale : float) (num_images : Z)
  (seed : option Z) (kwargs : gmap string json).

Let payload : gmap string json :=
  arguments prompt image_size num_inference_steps guidance_scale num_images
    seed kwargs.
Let run : M (list Tensor) :=
  generate self prompt image_size num_inference_steps guidance_scale
    num_images seed kwargs.

(** With a key and an answer from fal.ai, [generate] is the test of line 94
    followed by the loop. *)
Lemma generate_on_response result :
  api_key_missing self = false →
  fal_client_submit "fal-ai/flux-lora" payload = Ok result →
  value run =
    if no_images result then
      Raise (new_exn RuntimeError "No images were generated by the API.")
    else
      match py_iter (default JNull (result !! "images")) with
      | Raise e => Raise e
      | Ok images =>
          match omap decoded images with
          | [] => Raise (new_exn RuntimeError
                           "Failed to process any of the generated images.")
          | output_images => Ok output_images
          end
      end.
Proof.
  intros Hkey Hsubmit. subst run payload. unfold generate.
  rewrite Hkey. autorewrite with py_value. rewrite Hsubmit.
  autorewrite with py_value.
  destruct (no_images result); [reflexivity|].
  autorewrite with py_value.
  destruct (py_iter _) as [images|e]; [|reflexivity].
  autorewrite with py_value.
  rewrite process_images_value. cbn [app].
  destruct (omap decoded images); reflexivity.
Qed.

(** On a response whose ["images"] is a JSON array. *)
Lemma generate_on_images result images :
  api_key_missing self = false →
  fal_client_submit "fal-ai/flux-lora" payload = Ok result →
  result !! "images" = Some (JList images) →
  value run =
    match images with
    | [] => Raise (new_exn RuntimeError "No images were generated by the API.")
    | _ =>
        match omap decoded images with
        | [] => Raise (new_exn RuntimeError
                         "Failed to process any of the generated images.")
        | output_images => Ok output_images
        end
    end.
Proof.
  intros Hkey Hsubmit Himages.
  rewrite (generate_on_response result Hkey Hsubmit).
  unfold no_images. rewrite Himages. cbn.
  destruct images; reflexivity.
Qed.

End GenerateValue.

(** ** Descriptors that are dropped *)

Section Dropped.
Context `{Externals}.

Lemma decoded_invalid img_info :
  invalid_image_info img_info = true → decoded img_info = None.
Proof.
  intros Hinv. unfold decoded, process_image.
  autorewrite with py_value. rewrite Hinv.
  autorewrite with py_value. reflexivity.
Qed.

Lemma fetch_image_data_fails index url :
  url_fails url →
  value (fetch_image_data index url) = Ok None ∨
  ∃ e, value (fetch_image_data index url) = Raise e.
Proof.
  unfold url_fails, fetch_image_data, try_except_class.
  destruct (startswith url "data:image").
  - intros Hsplit. autorewrite with py_value.
    destruct (split_comma_once url) as [|header [|payload [|extra parts]]];
      cbn; autorewrite with py_value; auto.
    destruct Hsplit as [e ->]. cbn.
    destruct (isinstance_exn e ValueError); autorewrite with py_value; eauto.
  - intros [e He]. autorewrite with py_value. rewrite He. cbn.
    destruct (isinstance_exn e RequestException);
      autorewrite with py_value; eauto.
Qed.

Lemma decoded_url_fails d url :
  d !! "url" = Some (JStr url) → url_fails url → decoded (JDict d) = None.
Proof.
  intros Hurl Hfails. unfold decoded, process_image.
  autorewrite with py_value.
  destruct (invalid_image_info (JDict d)).
  { autorewrite with py_value. reflexivity. }
  autorewrite with py_value. cbn [image_url]. rewrite Hurl.
  autorewrite with py_value.
  destruct (fetch_image_data_fails 0 url Hfails) as [-> | [e ->]];
    autorewrite with py_value; reflexivity.
Qed.

End Dropped.

(** ** Claims about the decoding loop *)

(** C1. Per-image failure isolation.  For a response whose ["images"] is a
    list of descriptors: no exception leaves the processing of one descriptor;
    a malformed descriptor, and one whose url cannot be fetched or decoded,
    contributes nothing; [generate] returns exactly the tensors of the
    descriptors that decode, so removing a failing descriptor from the
    response does not change them; and for three descriptors, one with a
    failing url and two that decode, in any order, [generate] returns two
    images and does not raise. *)
Theorem per_image_failure_isolation (E : Externals) (self : FalAPIFluxNode)
    (prompt image_size : string) (num_inference_steps : Z)
    (guidance_scale : float) (num_images : Z) (seed : option Z)
    (kwargs result : gmap string json) (images : list json) :
  api_key_missing self = false →
  fal_client_submit "fal-ai/flux-lora"
    (arguments prompt image_size num_inference_steps guidance_scale
       num_images seed kwargs) = Ok result →
  result !! "images" = Some (JList images) →
  let run := generate self prompt image_size num_inference_steps
               guidance_scale num_images seed kwargs in
  (∀ index img_info,
     value (process_image index img_info) = Ok (decoded img_info)) ∧
  (∀ img_info, invalid_image_info img_info = true → decoded img_info = None) ∧
  (∀ d url, d !! "url" = Some (JStr url) → url_fails url →
     decoded (JDict d) = None) ∧
  (omap decoded images ≠ [] → value run = Ok (omap decoded images)) ∧
  (∀ before failed after,
     images = before ++ failed :: after → decoded failed = None →
     omap decoded images = omap decoded (before ++ after)) ∧
  (∀ d url good1 good2 t1 t2,
     d !! "url" = Some (JStr url) → url_fails url →
     decoded good1 = Some t1 → decoded good2 = Some t2 →
     images ≡ₚ [JDict d; good1; good2] →
     ∃ output_images, value run = Ok output_images ∧
       length output_images = 2%nat ∧ output_images ≡ₚ [t1; t2]).
Proof.
  intros Hkey Hsubmit Himages run.
  assert (Hrun : omap decoded images ≠ [] → value run = Ok (omap decoded images)).
  { intros Hne. subst run.
    rewrite (generate_on_images _ _ _ _ _ _ _ _ result images Hkey Hsubmit Himages).
    destruct images as [|img_info rest]; [done|].
    destruct (omap decoded (img_info :: rest)); done. }
  split_and!.
  - intros. apply process_image_decoded.
  - apply decoded_invalid.
  - apply decoded_url_fails.
  - exact Hrun.
  - intros before failed after -> Hfailed.
    rewrite !omap_app. cbn. by rewrite Hfailed.
  - intros d url good1 good2 t1 t2 Hurl Hfails Hg1 Hg2 Hperm.
    assert (Hsurvive : omap decoded images ≡ₚ [t1; t2]).
    { rewrite Hperm. cbn.
      by rewrite (decoded_url_fails d url Hurl Hfails), Hg1, Hg2. }
    exists (omap decoded images). split_and!.
    + apply Hrun. intros Hnil. rewrite Hnil in Hsurvive.
      by apply Permutation_nil_cons in Hsurvive.
    + by rewrite Hsurvive.
    + exact Hsurvive.
Qed.

Lemma per_image_failure_isolation_witness :
  api_key_missing Sample.node = false ∧
  (∃ output_images,
     value (@generate
              (Sample.externals
                 (Ok (Sample.response_of
                        [Sample.pixel_uri; Sample.malformed_uri; Sample.grey_uri])))
              Sample.node "a cat" "square_hd" 28 (Np.f64_of_Z 3) 3 None ∅)
       = Ok output_images ∧
     length output_images = 2%nat).
Proof.
  split; [reflexivity|].
  pose (E := Sample.externals
               (Ok (Sample.response_of
                      [Sample.pixel_uri; Sample.malformed_uri; Sample.grey_uri]))).
  destruct (per_image_failure_isolation E Sample.node "a cat" "square_hd" 28
              (Np.f64_of_Z 3) 3 None ∅
              (Sample.response_of
                 [Sample.pixel_uri; Sample.malformed_uri; Sample.grey_uri])
              (Sample.descriptor <$>
                 [Sample.pixel_uri; Sample.malformed_uri; Sample.grey_uri])
              eq_refl eq_refl eq_refl)
    as (_ & _ & _ & _ & _ & Hthree).
  destruct (Hthree {[ "url" := JStr Sample.malformed_uri ]} Sample.malformed_uri
              (Sample.descriptor Sample.pixel_uri)
              (Sample.descriptor Sample.grey_uri)
              (default (Np.NdArray [] [])
                 (@decoded E (Sample.descriptor Sample.pixel_uri)))
              (default (Np.NdArray [] [])
                 (@decoded E (Sample.descriptor Sample.grey_uri))))
    as (output_images & Hvalue & Hlength & _).
  - reflexivity.
  - vm_compute. exact I.
  - vm_compute. reflexivity.
  - vm_compute. reflexivity.
  - apply perm_swap.
  - exists output_images. split; assumption.
Defined.

Lemma omap_decoded_nil `{Externals} (images : list json) :
  omap decoded images = [] ↔ Forall (λ img_info, decoded img_info = None) images.
Proof.
  induction images as [|img_info rest IH]; cbn -[decoded].
  - split; [constructor | done].
  - destruct (decoded img_info) eqn:Hd.
    + split; [done | intros Hall; inversion Hall; congruence].
    + rewrite IH. split; [by constructor | intros Hall; by inversion Hall].
Qed.

(** C3. With a key and an answer from fal.ai whose ["images"], when present,
    is a list: [generate] raises one of the two empty-result errors exactly
    when the response has no images or every descriptor failed to decode,
    and in every other case it returns a non-empty list. *)
Theorem empty_result_error_iff (E : Externals) (self : FalAPIFluxNode)
    (prompt image_size : string) (num_inference_steps : Z)
    (guidance_scale : float) (num_images : Z) (seed : option Z)
    (kwargs result : gmap string json) (images : list json) :
  api_key_missing self = false →
  fal_client_submit "fal-ai/flux-lora"
    (arguments prompt image_size num_inference_steps guidance_scale
       num_images seed kwargs) = Ok result →
  result !! "images" = Some (JList images) ∨
    (result !! "images" = None ∧ images = []) →
  let run := generate self prompt image_size num_inference_steps
               guidance_scale num_images seed kwargs in
  (empty_result_error (value run) ↔
     images = [] ∨ Forall (λ img_info, decoded img_info = None) images) ∧
  (empty_result_error (value run) ∨
     ∃ output_images, value run = Ok output_images ∧ output_images ≠ [] ∧
       output_images = omap decoded images).
Proof.
  intros Hkey Hsubmit Himages run.
  assert (Hvalue : value run =
    match images with
    | [] => Raise (new_exn RuntimeError "No images were generated by the API.")
    | _ =>
        match omap decoded images with
        | [] => Raise (new_exn RuntimeError
                         "Failed to process any of the generated images.")
        | output_images => Ok output_images
        end
    end).
  { subst run. destruct Himages as [Himages | [Hnone ->]].
    - by apply generate_on_images with (result := result).
    - rewrite (generate_on_response _ _ _ _ _ _ _ _ result Hkey Hsubmit).
      unfold no_images. by rewrite Hnone. }
  rewrite Hvalue. unfold empty_result_error.
  destruct images as [|img_info rest].
  { split; [split; auto | auto]. }
  destruct (omap decoded (img_info :: rest)) as [|t ts] eqn:Homap.
  - apply omap_decoded_nil in Homap. split; [split; auto | auto].
  - split.
    + split; [intros [?|?]; done |].
      intros [? | Hall]; [done|].
      apply omap_decoded_nil in Hall. congruence.
    + right. by exists (t :: ts).
Qed.

Lemma empty_result_error_iff_witness :
  api_key_missing Sample.node = false ∧
  empty_result_error
    (value (@generate
              (Sample.externals
                 (Ok (Sample.response_of
                        [Sample.malformed_uri; "not a link"])))
              Sample.node "a cat" "square_hd" 28 (Np.f64_of_Z 3) 2 None ∅)).
Proof.
  split; [reflexivity|].
  pose (E := Sample.externals
               (Ok (Sample.response_of [Sample.malformed_uri; "not a link"]))).
  destruct (empty_result_error_iff E Sample.node "a cat" "square_hd" 28
              (Np.f64_of_Z 3) 2 None ∅
              (Sample.response_of [Sample.malformed_uri; "not a link"])
              (Sample.descriptor <$> [Sample.malformed_uri; "not a link"])
              eq_refl eq_refl (or_introl eq_refl))
    as [Hiff _].
  apply Hiff. right.
  repeat constructor.
Defined.

(** ** Tensors of valid images *)

Lemma f32_div255_unit_interval (b : byte) :
  in_unit_interval (Np.f32_div (Np.f32_of_Z (Np.u8 b)) (Np.f32_of_Z 255)).
Proof. destruct b; vm_compute; split; reflexivity. Qed.

Lemma astype_float32_div255_unit_interval (a : Np.ndarray byte) :
  Forall in_unit_interval (Np.data (Np.astype_float32_div255 a)).
Proof.
  unfold Np.astype_float32_div255. cbn [Np.data].
  apply Forall_fmap, Forall_forall. intros b _. apply f32_div255_unit_interval.
Qed.

Section ValidImages.
Context `{Externals}.

(** [convert] answers with an in-memory image of the requested mode and of the
    size of its argument. *)
Lemma Image_convert_Ok img m img' :
  Image_convert img m = Ok img' →
  PIL.mode img' = m ∧ PIL.size img' = PIL.size img ∧
  ∃ samples, PIL.im img' = PIL.Loaded samples.
Proof.
  unfold Image_convert. intros Hc.
  repeat case_match; simplify_eq; cbn; eauto.
Qed.

(** An RGB image whose samples load becomes a tensor of shape
    (height, width, 3) with values in the unit interval. *)
Lemma to_tensor_rgb_value img samples :
  PIL.mode img = "RGB" → Image_load img = Ok samples →
  value (to_tensor img) =
  Ok (Np.astype_float32_div255
        (Np.NdArray [(PIL.size img).2; (PIL.size img).1; 3%nat] samples)).
Proof.
  intros Hmode Hload.
  unfold to_tensor. rewrite Hmode at 1. rewrite String.eqb_refl. cbn [negb].
  autorewrite with py_value.
  unfold np_array. rewrite Hload, Hmode. by destruct (PIL.size img) as [w h].
Qed.

Lemma to_tensor_rgb img samples :
  PIL.mode img = "RGB" → Image_load img = Ok samples →
  ∃ t, value (to_tensor img) = Ok t ∧
    Np.shape t = [(PIL.size img).2; (PIL.size img).1; 3%nat] ∧
    Forall in_unit_interval (Np.data t).
Proof.
  intros Hmode Hload.
  eexists. split; [by apply to_tensor_rgb_value|]. split; [reflexivity|].
  apply astype_float32_div255_unit_interval.
Qed.

Lemma to_tensor_valid img samples :
  (if String.eqb (PIL.mode img) "RGB" then Image_load img = Ok samples
   else Image_convert img "RGB" =
          Ok (PIL.MkImage "RGB" (PIL.size img) (PIL.Loaded samples))) →
  value (to_tensor img) =
  Ok (Np.astype_float32_div255
        (Np.NdArray [(PIL.size img).2; (PIL.size img).1; 3%nat] samples)).
Proof.
  destruct (String.eqb (PIL.mode img) "RGB") eqn:Hmode.
  - intros Hload. apply String.eqb_eq in Hmode.
    by apply to_tensor_rgb_value.
  - intros Hconv.
    pose proof (to_tensor_rgb_value
                  (PIL.MkImage "RGB" (PIL.size img) (PIL.Loaded samples))
                  samples eq_refl eq_refl) as Ht.
    cbn [PIL.size] in Ht. rewrite <- Ht.
    unfold to_tensor at 1. rewrite Hmode. cbn [negb].
    autorewrite with py_value. rewrite Hconv.
    unfold to_tensor. cbn [PIL.mode]. rewrite String.eqb_refl. cbn [negb].
    autorewrite with py_value. reflexivity.
Qed.

Lemma startswith_nonempty url p :
  startswith url p = true → p ≠ "" → String.eqb url "" = false.
Proof.
  unfold startswith. destruct url; [|done].
  destruct p; [done|]. cbn. done.
Qed.

Lemma decoded_valid img_info img samples :
  valid_data_uri_image img_info img samples →
  decoded img_info =
  Some (Np.astype_float32_div255
          (Np.NdArray [(PIL.size img).2; (PIL.size img).1; 3%nat] samples)).
Proof.
  intros (d & url & header & payload & img_data & -> & Hurl & Hstart & Hsplit
          & Hb64 & Hopen & Hrgb & _).
  pose proof (to_tensor_valid img samples Hrgb) as Ht.
  unfold decoded, process_image. autorewrite with py_value.
  unfold invalid_image_info, image_url. rewrite Hurl. cbn [truthy].
  rewrite (startswith_nonempty _ _ Hstart) by done. cbn [negb].
  autorewrite with py_value.
  unfold fetch_image_data, try_except_class. rewrite Hstart.
  autorewrite with py_value. rewrite Hsplit. cbn [unpack2 snd].
  rewrite Hb64. autorewrite with py_value.
  unfold open_image. autorewrite with py_value. rewrite Hopen.
  autorewrite with py_value. rewrite Ht. reflexivity.
Qed.

End ValidImages.

Lemma omap_decoded_valid `{Externals} (images : list json) :
  Forall (λ img_info, ∃ img samples, valid_data_uri_image img_info img samples)
    images →
  Forall2 (λ img_info t,
             decoded img_info = Some t ∧
             ∃ img samples, valid_data_uri_image img_info img samples ∧
               Np.shape t = [(PIL.size img).2; (PIL.size img).1; 3%nat] ∧
               Np.data t = unit_of_sample <$> samples ∧
               length (Np.data t) =
                 ((PIL.size img).2 * (PIL.size img).1 * 3)%nat ∧
               Forall in_unit_interval (Np.data t))
    images (omap decoded images).
Proof.
  induction 1 as [|img_info rest (img & samples & Hvalid) _ IH];
    cbn -[decoded].
  - constructor.
  - rewrite (decoded_valid img_info img samples Hvalid).
    constructor; [|exact IH].
    split; [exact (decoded_valid img_info img samples Hvalid)|].
    exists img, samples.
    split_and!; [exact Hvalid | reflexivity | reflexivity | |
                 apply astype_float32_div255_unit_interval].
    cbn [Np.astype_float32_div255 Np.data]. rewrite length_fmap.
    by destruct Hvalid as (? & ? & ? & ? & ? & _ & _ & _ & _ & _ & _ & _ & Hlen).
Qed.

(** C4. For [num_images] between 1 and 4, when fal.ai returns that many
    descriptors and each carries a valid image as a data URI, [generate]
    returns that many tensors; the i-th tensor is the one decoded from the
    i-th descriptor, its shape is (height, width, 3) for the size of the
    image, it holds height times width times 3 values, which are the RGB
    samples of the image divided by 255 in float32, in the order of the
    image, and all of them lie between 0.0 and 1.0. *)
Theorem valid_data_uri_images_decoded (E : Externals) (self : FalAPIFluxNode)
    (prompt image_size : string) (num_inference_steps : Z)
    (guidance_scale : float) (num_images : Z) (seed : option Z)
    (kwargs result : gmap string json) (images : list json) :
  api_key_missing self = false →
  1 ≤ num_images ≤ 4 →
  fal_client_submit "fal-ai/flux-lora"
    (arguments prompt image_size num_inference_steps guidance_scale
       num_images seed kwargs) = Ok result →
  result !! "images" = Some (JList images) →
  length images = Z.to_nat num_images →
  Forall (λ img_info, ∃ img samples, valid_data_uri_image img_info img samples)
    images →
  ∃ output_images,
    value (generate self prompt image_size num_inference_steps guidance_scale
             num_images seed kwargs) = Ok output_images ∧
    length output_images = Z.to_nat num_images ∧
    Forall2 (λ img_info t,
               decoded img_info = Some t ∧
               ∃ img samples, valid_data_uri_image img_info img samples ∧
                 Np.shape t = [(PIL.size img).2; (PIL.size img).1; 3%nat] ∧
                 Np.data t = unit_of_sample <$> samples ∧
                 length (Np.data t) =
                   ((PIL.size img).2 * (PIL.size img).1 * 3)%nat ∧
                 Forall in_unit_interval (Np.data t))
      images output_images.
Proof.
  intros Hkey Hnum Hsubmit Himages Hlength Hvalid.
  pose proof (omap_decoded_valid images Hvalid) as Hall.
  exists (omap decoded images). split_and!.
  - rewrite (generate_on_images _ _ _ _ _ _ _ _ result images Hkey Hsubmit Himages).
    apply Forall2_length in Hall.
    destruct images as [|img_info rest]; [cbn in Hlength; lia|].
    destruct (omap decoded (img_info :: rest)); [done | reflexivity].
  - apply Forall2_length in Hall. congruence.
  - exact Hall.
Qed.

Lemma valid_data_uri_images_decoded_witness :
  api_key_missing Sample.node = false ∧ 1 ≤ 2 ≤ 4 ∧
  ∃ output_images,
    value (@generate
             (Sample.externals
                (Ok (Sample.response_of [Sample.pixel_uri; Sample.grey_uri])))
             Sample.node "a cat" "square_hd" 28 (Np.f64_of_Z 3) 2 (Some 42) ∅)
      = Ok output_images ∧
    Np.shape <$> output_images = [[1; 1; 3]; [1; 2; 3]]%nat.
Proof.
  split; [reflexivity|]. split; [lia|].
  pose (E := Sample.externals
               (Ok (Sample.response_of [Sample.pixel_uri; Sample.grey_uri]))).
  destruct (valid_data_uri_images_decoded E Sample.node "a cat" "square_hd" 28
              (Np.f64_of_Z 3) 2 (Some 42) ∅
              (Sample.response_of [Sample.pixel_uri; Sample.grey_uri])
              (Sample.descriptor <$> [Sample.pixel_uri; Sample.grey_uri])
              eq_refl ltac:(lia) eq_refl eq_refl eq_refl)
    as (output_images & Hvalue & _ & _).
  - repeat constructor.
    + exists (PIL.MkImage "RGB" (1, 1)%nat
                (PIL.Deferred ["R"; "001"; "001"; "255"; "000"; "128"]%byte)),
             ["255"; "000"; "128"]%byte.
      exists {[ "url" := JStr Sample.pixel_uri ]}, Sample.pixel_uri,
             "data:image/raw;base64", "UgEB/wCA",
             ["R"; "001"; "001"; "255"; "000"; "128"]%byte.
      split_and!; reflexivity.
    + exists (PIL.MkImage "L" (2, 1)%nat
                (PIL.Deferred ["G"; "002"; "001"; "000"; "255"]%byte)),
             ["000"; "000"; "000"; "255"; "255"; "255"]%byte.
      exists {[ "url" := JStr Sample.grey_uri ]}, Sample.grey_uri,
             "data:image/raw;base64", "RwIBAP8=",
             ["G"; "002"; "001"; "000"; "255"]%byte.
      split_and!; reflexivity.
  - exists output_images. split; [exact Hvalue|].
    vm_compute in Hvalue. injection Hvalue as <-. reflexivity.
Defined.

(** ** Claims about the submission and the payload *)




(** C6. The payload has a ["seed"] entry exactly when the seed is given and
    is not zero, and the entry is that seed: seed 0 is left out, seed 42 is
    sent as 42. *)
Theorem seed_in_payload (prompt image_size : string) (num_inference_steps : Z)
    (guidance_scale : float) (num_images : Z) (seed : option Z)
    (kwargs : gmap string json) :
  arguments prompt image_size num_inference_steps guidance_scale num_images
    seed kwargs !! "seed" =
    match seed with
    | Some s => if s =? 0 then None else Some (JInt s)
    | None => None
    end ∧
  arguments prompt image_size num_inference_steps guidance_scale num_images
    (Some 0) kwargs !! "seed" = None ∧
  arguments prompt image_size num_inference_steps guidance_scale num_images
    (Some 42) kwargs !! "seed" = Some (JInt 42).
Proof.
  assert (Hseed : ∀ seed',
    arguments prompt image_size num_inference_steps guidance_scale num_images
      seed' kwargs !! "seed" =
    match seed' with
    | Some s => if s =? 0 then None else Some (JInt s)
    | None => None
    end).
  { intros seed'. unfold arguments.
    destruct (lora_list kwargs) as [|lora loras];
      destruct seed' as [s|]; try destruct (s =? 0); cbn [negb];
      by simplify_map_eq. }
  split_and!; [apply Hseed | apply (Hseed (Some 0)) | apply (Hseed (Some 42))].
Qed.

Lemma lora_fold (kwargs : gmap string json) (keys : list string) :
  ∀ acc,
    foldl (λ acc key,
             match kwargs !! key with
             | Some lora_config =>
                 if truthy lora_config then acc ++ [lora_config] else acc
             | None => acc
             end) acc keys =
    acc ++ filter (λ v, truthy v) (omap (λ key, kwargs !! key) keys).
Proof.
  induction keys as [|key keys IH]; intros acc; cbn.
  - by rewrite app_nil_r.
  - rewrite IH. destruct (kwargs !! key) as [lora_config|]; [|reflexivity].
    rewrite filter_cons. destruct (truthy lora_config) eqn:Ht.
    + rewrite decide_True by done. by rewrite <- app_assoc.
    + rewrite decide_False by (intros []). reflexivity.
Qed.

Lemma lora_list_slots (kwargs : gmap string json) :
  lora_list kwargs =
  filter (λ v, truthy v)
    (omap (λ key, kwargs !! key)
       ["lora_1"; "lora_2"; "lora_3"; "lora_4"; "lora_5"]).
Proof.
  unfold lora_list.
  change (seq 1 5) with [1; 2; 3; 4; 5]%nat. cbn [foldl].
  change ("lora_" +:+ pretty 1%nat) with "lora_1".
  change ("lora_" +:+ pretty 2%nat) with "lora_2".
  change ("lora_" +:+ pretty 3%nat) with "lora_3".
  change ("lora_" +:+ pretty 4%nat) with "lora_4".
  change ("lora_" +:+ pretty 5%nat) with "lora_5".
  exact (lora_fold kwargs ["lora_1"; "lora_2"; "lora_3"; "lora_4"; "lora_5"] []).
Qed.

(** C7. The LoRA list is made of the truthy values of the slots [lora_1] to
    [lora_5] that [kwargs] holds, in slot order; the payload has a ["loras"]
    entry, that list, exactly when the list is not empty.  With only
    [lora_1] and [lora_3] given, the list is made of these two, in this
    order. *)
Theorem lora_slots_in_payload (prompt image_size : string)
    (num_inference_steps : Z) (guidance_scale : float) (num_images : Z)
    (seed : option Z) (kwargs : gmap string json) :
  let slots := omap (λ key, kwargs !! key)
                 ["lora_1"; "lora_2"; "lora_3"; "lora_4"; "lora_5"] in
  let loras := filter (λ v, truthy v) slots in
  lora_list kwargs = loras ∧
  arguments prompt image_size num_inference_steps guidance_scale num_images
    seed kwargs !! "loras" =
    match loras with
    | [] => None
    | _ => Some (JList loras)
    end ∧
  (∀ lora_1 lora_3,
     lora_list {[ "lora_1" := lora_1; "lora_3" := lora_3 ]} =
     filter (λ v, truthy v) [lora_1; lora_3]).
Proof.
  intros slots loras. split_and!.
  - apply lora_list_slots.
  - unfold arguments. rewrite lora_list_slots. fold slots. fold loras.
    destruct loras as [|lora rest];
      destruct seed as [s|]; try destruct (s =? 0); cbn [negb];
      by simplify_map_eq.
  - intros lora_1 lora_3. rewrite lora_list_slots. reflexivity.
Qed.

(** ** The normalisation on [uint8] samples *)

Lemma u8_range (b : byte) : 0 ≤ Np.u8 b < 256.
Proof.
  unfold Np.u8. pose proof (Byte.to_N_bounded b) as Hb. lia.
Qed.

Lemma u8_to_u8 (z : Z) : 0 ≤ z < 256 → Np.u8 (Np.to_u8 z) = z.
Proof.
  intros Hz. unfold Np.u8, Np.to_u8. rewrite Z.mod_small by lia.
  destruct (Byte.of_N (Z.to_N z)) as [b|] eqn:Hb.
  - apply Byte.to_of_N in Hb. rewrite Hb. lia.
  - apply Byte.of_N_None_iff in Hb. lia.
Qed.

Lemma u8_inj (x y : byte) : Np.u8 x = Np.u8 y → x = y.
Proof.
  unfold Np.u8. intros Hxy. apply N2Z.inj in Hxy.
  pose proof (Byte.of_to_N x) as Hx. rewrite Hxy, Byte.of_to_N in Hx.
  congruence.
Qed.

Lemma u8_u8_sub (x lo : byte) :
  Np.u8 lo ≤ Np.u8 x → Np.u8 (Np.u8_sub x lo) = Np.u8 x - Np.u8 lo.
Proof.
  intros Hle. unfold Np.u8_sub. apply u8_to_u8.
  pose proof (u8_range x). pose proof (u8_range lo). lia.
Qed.

Lemma zrange_In (n : nat) (z : Z) : 0 ≤ z < Z.of_nat n → In z (Np.zrange n).
Proof.
  intros Hz. unfold Np.zrange. apply in_map_iff.
  exists (Z.to_nat z). split; [lia|]. apply in_seq. lia.
Qed.

Lemma forall_pairs_true (P : Z → Z → bool) (n : nat) :
  Np.forall_pairs n P = true →
  ∀ a d, 0 ≤ a < Z.of_nat n → 0 ≤ d < Z.of_nat n → P a d = true.
Proof.
  unfold Np.forall_pairs. intros Hall a d Ha Hd.
  rewrite forallb_forall in Hall.
  specialize (Hall d (zrange_In n d Hd)). cbn beta in Hall.
  rewrite forallb_forall in Hall.
  exact (Hall a (zrange_In n a Ha)).
Qed.

Lemma normalisation_table_true :
  Np.forall_pairs 256 Np.normalisation_entry = true.
Proof. vm_compute. reflexivity. Qed.

(** In float64, [a / d * 255] truncates to the integer quotient, and the
    cast to [uint8] is defined, whenever [0 <= a <= d] and [0 < d <= 255]. *)
Lemma scale255_exact (a d : Z) :
  0 ≤ a ≤ d → 0 < d ≤ 255 →
  Np.representable_u8 (Prim2SF (Np.scale255 a d)) = true ∧
  Np.f64_trunc (Prim2SF (Np.scale255 a d)) = a * 255 / d.
Proof.
  intros Ha Hd.
  assert (Hentry : Np.normalisation_entry a d = true).
  { apply (forall_pairs_true _ 256 normalisation_table_true); lia. }
  unfold Np.normalisation_entry in Hentry.
  assert (Hlt : (d <? a) = false) by (apply Z.ltb_ge; lia).
  assert (Hz : (d =? 0) = false) by (apply Z.eqb_neq; lia).
  rewrite Hlt, Hz in Hentry. cbn [orb] in Hentry. cbn zeta in Hentry.
  apply andb_prop in Hentry as [Hrep Htrunc].
  split; [exact Hrep | by apply Z.eqb_eq].
Qed.

Lemma foldl_u8_min_le (l : list byte) : ∀ b,
  Np.u8 (foldl Np.u8_min b l) ≤ Np.u8 b ∧
  Forall (λ x, Np.u8 (foldl Np.u8_min b l) ≤ Np.u8 x) l.
Proof.
  induction l as [|y l IH]; intros b; cbn [foldl].
  - split; [lia | constructor].
  - destruct (IH (Np.u8_min b y)) as [Hle Hall].
    assert (Hmin : Np.u8 (Np.u8_min b y) ≤ Np.u8 b ∧
                   Np.u8 (Np.u8_min b y) ≤ Np.u8 y).
    { unfold Np.u8_min. destruct (Z.ltb_spec (Np.u8 y) (Np.u8 b)); lia. }
    split; [lia|]. constructor; [lia | exact Hall].
Qed.

Lemma foldl_u8_max_ge (l : list byte) : ∀ b,
  Np.u8 b ≤ Np.u8 (foldl Np.u8_max b l) ∧
  Forall (λ x, Np.u8 x ≤ Np.u8 (foldl Np.u8_max b l)) l.
Proof.
  induction l as [|y l IH]; intros b; cbn [foldl].
  - split; [lia | constructor].
  - destruct (IH (Np.u8_max b y)) as [Hle Hall].
    assert (Hmax : Np.u8 b ≤ Np.u8 (Np.u8_max b y) ∧
                   Np.u8 y ≤ Np.u8 (Np.u8_max b y)).
    { unfold Np.u8_max. destruct (Z.ltb_spec (Np.u8 b) (Np.u8 y)); lia. }
    split; [lia|]. constructor; [lia | exact Hall].
Qed.

(** Between distinct bounds the stretched sample is the integer
    [(x - lo) * 255 / (hi - lo)], whatever the platform. *)
Lemma stretched_exact `{Externals} (lo hi x : byte) :
  Np.u8 lo ≤ Np.u8 x ≤ Np.u8 hi → lo ≠ hi →
  stretched lo hi x =
  Np.to_u8 ((Np.u8 x - Np.u8 lo) * 255 / (Np.u8 hi - Np.u8 lo)).
Proof.
  intros Hx Hne.
  assert (Hlt : Np.u8 lo < Np.u8 hi).
  { destruct (Z.eq_dec (Np.u8 lo) (Np.u8 hi)) as [Heq|]; [|lia].
    by apply u8_inj in Heq. }
  pose proof (u8_range lo). pose proof (u8_range hi).
  unfold stretched, Np.f64_to_u8.
  rewrite !u8_u8_sub by lia.
  cbn zeta.
  destruct (scale255_exact (Np.u8 x - Np.u8 lo) (Np.u8 hi - Np.u8 lo))
    as [-> ->]; [lia | lia | reflexivity].
Qed.


(** ** The raw-buffer fallback *)

Section RawBuffer.
Context `{Externals}.

(** On a buffer that is not empty the fallback succeeds: the array has the
    shape [raw_shape] and every sample is stretched between the minimum and
    the maximum of the buffer. *)
Lemma raw_pixel_array_cons (b : byte) (rest : list byte) :
  value (raw_pixel_array (b :: rest)) =
  Ok (Np.NdArray (raw_shape (length (b :: rest)))
        (stretched (foldl Np.u8_min b rest) (foldl Np.u8_max b rest)
           <$> (b :: rest))).
Proof.
  unfold raw_pixel_array, raw_shape. autorewrite with py_value.
  set (img_data := b :: rest).
  assert (Hreshaped :
    value (if decide (Np.shape (Np.frombuffer img_data) = [1024%nat])
           then lift (Np.reshape (Np.frombuffer img_data) [32%nat; 32%nat])
           else if decide (Np.shape (Np.frombuffer img_data)
                           = [1%nat; 1%nat; 1024%nat])
                then lift (Np.reshape (Np.frombuffer img_data) [32%nat; 32%nat])
                else ret (Np.frombuffer img_data)) =
    Ok (Np.NdArray (if decide (length img_data = 1024%nat)
                    then [32; 32]%nat else [length img_data]) img_data)).
  { cbn [Np.frombuffer Np.shape].
    destruct (decide (length img_data = 1024%nat)) as [Hlen|Hlen].
    - rewrite decide_True by congruence. autorewrite with py_value.
      unfold Np.reshape. cbn [Np.data].
      rewrite decide_True by (symmetry; exact Hlen). reflexivity.
    - rewrite decide_False by congruence.
      rewrite decide_False by discriminate. reflexivity. }
  rewrite Hreshaped. autorewrite with py_value.
  unfold Np.min, Np.max. cbn [Np.data]. subst img_data.
  cbn [value bind lift ret fst].
  unfold Np.astype_uint8, Np.multiply, Np.true_divide, Np.subtract.
  cbn [Np.shape Np.data]. do 2 f_equal.
  rewrite <- !list_fmap_compose. reflexivity.
Qed.

Lemma raw_pixel_array_nil :
  value (raw_pixel_array []) =
  Raise (new_exn ValueError
           "zero-size array to reduction operation minimum which has no identity").
Proof. reflexivity. Qed.

Lemma foldl_u8_min_replicate (b : byte) (n : nat) :
  foldl Np.u8_min b (replicate n b) = b.
Proof.
  induction n as [|n IH]; [reflexivity|]. cbn [replicate foldl].
  unfold Np.u8_min at 2. by rewrite Z.ltb_irrefl.
Qed.

Lemma foldl_u8_max_replicate (b : byte) (n : nat) :
  foldl Np.u8_max b (replicate n b) = b.
Proof.
  induction n as [|n IH]; [reflexivity|]. cbn [replicate foldl].
  unfold Np.u8_max at 2. by rewrite Z.ltb_irrefl.
Qed.

Lemma u8_sub_diag (b : byte) : Np.u8_sub b b = x00.
Proof. unfold Np.u8_sub. by rewrite Z.sub_diag. Qed.

End RawBuffer.


Section Fallback.
Context `{Externals}.

Lemma fromarray_Ok (obj : Np.ndarray byte) (m : string) (img : PIL.Image) :
  PIL.fromarray obj m = Ok img →
  PIL.mode img = m ∧ PIL.im img = PIL.Loaded (Np.data obj).
Proof.
  unfold PIL.fromarray. intros Himg.
  repeat case_match; simplify_eq; by split.
Qed.

Lemma Image_convert_L (img : PIL.Image) (samples : list byte) :
  PIL.mode img = "L" → PIL.im img = PIL.Loaded samples →
  Image_convert img "RGB" =
  Ok (PIL.MkImage "RGB" (PIL.size img) (PIL.Loaded (PIL.l2rgb samples))).
Proof.
  intros Hmode Him. unfold Image_convert, Image_load.
  rewrite Him, Hmode. reflexivity.
Qed.

(** The fallback of [open_image] on a buffer that is not empty: a greyscale
    image built from the stretched samples, converted to RGB. *)
Lemma open_image_fallback (b : byte) (rest : list byte) (e : exn) :
  Image_open (b :: rest) = Raise e →
  ∀ samples img,
    samples = stretched (foldl Np.u8_min b rest) (foldl Np.u8_max b rest)
                <$> (b :: rest) →
    PIL.fromarray (Np.NdArray (raw_shape (length (b :: rest))) samples) "L"
      = Ok img →
    value (open_image (b :: rest)) =
    Ok (PIL.MkImage "RGB" (PIL.size img) (PIL.Loaded (PIL.l2rgb samples))).
Proof.
  intros Hopen samples img -> Himg.
  unfold open_image. autorewrite with py_value. rewrite Hopen.
  autorewrite with py_value. rewrite raw_pixel_array_cons.
  autorewrite with py_value. rewrite Himg.
  destruct (fromarray_Ok _ _ _ Himg) as [Hmode Him].
  apply Image_convert_L; assumption.
Qed.


End Fallback.



(** C9, as the code has it.  The array read from the buffer is
    one-dimensional, so the test for the shape (1, 1, 1024) never succeeds.
    For a buffer that is not empty the array handed to [Image.fromarray] has
    shape (32, 32) when the buffer holds exactly 1024 bytes, and is the
    one-dimensional array of the length of the buffer otherwise; in that case
    the greyscale image is one pixel wide.  (An empty buffer does not get
    that far: the minimum of an empty array raises.) *)
Theorem raw_buffer_reshape_cases (E : Externals) (img_data : list byte) :
  img_data ≠ [] →
  Np.shape (Np.frombuffer img_data) ≠ [1; 1; 1024]%nat ∧
  ∃ img_np,
    value (raw_pixel_array img_data) = Ok img_np ∧
    Np.shape img_np =
      (if decide (length img_data = 1024%nat) then [32; 32]%nat
       else Np.shape (Np.frombuffer img_data)) ∧
    (Np.shape img_np = [32; 32]%nat ↔ length img_data = 1024%nat) ∧
    (length img_data ≠ 1024%nat →
     PIL.fromarray img_np "L" =
       Ok (PIL.MkImage "L" (1, length img_data)%nat
             (PIL.Loaded (Np.data img_np)))).
Proof.
  intros Hne. split; [discriminate|].
  destruct img_data as [|b rest]; [done|].
  eexists. split; [apply raw_pixel_array_cons|].
  cbn [Np.shape Np.data Np.frombuffer]. unfold raw_shape.
  destruct (decide (length (b :: rest) = 1024%nat)) as [Hlen|Hlen].
  - split_and!; [reflexivity | done | done].
  - split_and!; [reflexivity | | reflexivity].
    split; [|done]. intros Hshape. discriminate Hshape.
Qed.

Lemma raw_buffer_reshape_cases_witness :
  ["a"; "b"; "c"]%byte ≠ [] ∧
  ∃ img_np,
    value (@raw_pixel_array (Sample.externals (Ok ∅)) ["a"; "b"; "c"]%byte)
      = Ok img_np ∧
    Np.shape img_np = [3%nat].
Proof.
  split; [discriminate|].
  destruct (raw_buffer_reshape_cases (Sample.externals (Ok ∅))
              ["a"; "b"; "c"]%byte ltac:(discriminate))
    as (_ & img_np & Hvalue & Hshape & _).
  exists img_np. split; [exact Hvalue | exact Hshape].
Defined.

(** The empty buffer has a length other than 1024 and never reaches the
    construction of the greyscale image: the minimum of an empty array
    raises. *)
Lemma empty_buffer_not_constructed :
  length (@nil byte) ≠ 1024%nat ∧
  value (@raw_pixel_array (Sample.externals (Ok ∅)) []) =
    Raise (new_exn ValueError
             "zero-size array to reduction operation minimum which has no identity") ∧
  ¬ ∃ img_np, value (@raw_pixel_array (Sample.externals (Ok ∅)) []) = Ok img_np.
Proof.
  split_and!; [discriminate | apply raw_pixel_array_nil |].
  intros [img_np Himg]. rewrite raw_pixel_array_nil in Himg. discriminate Himg.
Qed.

Lemma stretched_constant `{Externals} (b : byte) :
  stretched b b b = undefined_cast S754_nan.
Proof. unfold stretched. rewrite u8_sub_diag. reflexivity. Qed.

(** C10. On a buffer of equal bytes the minimum and the maximum coincide, the
    divisor of the normalisation is zero, every quotient is 0/0, a nan, whose
    product with 255 has no defined cast to [uint8], and the samples of the
    image are what the platform makes of that cast; so in particular for 1024
    equal bytes. *)
Theorem constant_buffer_divides_by_zero (E : Externals) (b : byte) (n : nat) :
  let img_data := replicate (S n) b in
  let img_np := Np.frombuffer img_data in
  Np.min img_np = Ok b ∧ Np.max img_np = Ok b ∧
  Np.u8 (Np.u8_sub b b) = 0 ∧
  Prim2SF <$> Np.data (Np.true_divide (Np.subtract img_np b) (Np.u8_sub b b)) =
    replicate (S n) S754_nan ∧
  Np.representable_u8 (Prim2SF (Np.f64_mul PrimFloat.nan (Np.f64_of_Z 255)))
    = false ∧
  value (raw_pixel_array img_data) =
    Ok (Np.NdArray (raw_shape (S n)) (replicate (S n) (undefined_cast S754_nan))) ∧
  value (raw_pixel_array (replicate 1024 b)) =
    Ok (Np.NdArray [32; 32]%nat (replicate 1024 (undefined_cast S754_nan))).
Proof.
  assert (Hraw : ∀ m,
    value (raw_pixel_array (replicate (S m) b)) =
    Ok (Np.NdArray (raw_shape (S m)) (replicate (S m) (undefined_cast S754_nan)))).
  { intros m. cbn [replicate]. rewrite raw_pixel_array_cons.
    rewrite foldl_u8_min_replicate, foldl_u8_max_replicate.
    change (b :: replicate m b) with (replicate (S m) b).
    by rewrite length_replicate, fmap_replicate, stretched_constant. }
  intros img_data img_np. split_and!.
  - unfold Np.min. cbn. by rewrite foldl_u8_min_replicate.
  - unfold Np.max. cbn. by rewrite foldl_u8_max_replicate.
  - by rewrite u8_sub_diag.
  - unfold Np.true_divide, Np.subtract. cbn [Np.data Np.frombuffer img_np].
    unfold img_data. rewrite !fmap_replicate, !u8_sub_diag. reflexivity.
  - reflexivity.
  - apply Hraw.
  - apply (Hraw 1023%nat).
Qed.

(** 1024 equal bytes under the sample libraries, whose cast of nan is 0: a
    black 32 by 32 image. *)
Example constant_buffer_run :
  value (@raw_pixel_array (Sample.externals (Ok ∅)) Sample.flat) =
  Ok (Np.NdArray [32; 32]%nat (replicate 1024 "000"%byte)).
Proof. vm_compute. reflexivity. Qed.

(** With only [lora_1] and [lora_3] given (and an empty [lora_4]), the payload
    lists the two, in slot order. *)
Example lora_1_and_3_run :
  arguments "a cat" "square_hd" 28 (Np.f64_of_Z 3) 1 (Some 0)
    {[ "lora_1" := JDict {[ "path" := JStr "a.safetensors" ]};
       "lora_3" := JDict {[ "path" := JStr "c.safetensors" ]};
       "lora_4" := JDict ∅ ]} !! "loras" =
  Some (JList [JDict {[ "path" := JStr "a.safetensors" ]};
               JDict {[ "path" := JStr "c.safetensors" ]}]).
Proof. vm_compute. reflexivity. Qed.

(** ** The credential *)

(** C2, evaluated on the code.  The constructor raises a [TypeError] exactly
    when the configuration holds no credential (no file, no [falai] section,
    or no [api_key] in it): assigning [None] into [os.environ] is refused.
    With a credential the constructor succeeds and exports it, unless the
    text holds a NUL character, which [os.environ] refuses as well.
    [generate] has the guard for a node without key, raising the
    configuration error, but after a missing credential no node exists to
    call it on. *)
Theorem construction_without_credential (config_file : option ConfigParser)
    (environ : gmap string string) :
  __init__ config_file environ =
    match get_api_key config_file with
    | Some key =>
        if has_nul key then Raise (new_exn ValueError "embedded null byte")
        else Ok (MkNode (Some key), <["FAL_KEY" := key]> environ)
    | None => Raise (new_exn TypeError "str expected, not NoneType")
    end ∧
  __init__ None environ = Raise (new_exn TypeError "str expected, not NoneType") ∧
  __init__ (Some (MkConfig ∅ ∅)) environ =
    Raise (new_exn TypeError "str expected, not NoneType") ∧
  __init__ (Some (MkConfig ∅ {[ "falai" := ∅ ]})) environ =
    Raise (new_exn TypeError "str expected, not NoneType") ∧
  (∀ (E : Externals) prompt image_size num_inference_steps guidance_scale
     num_images seed kwargs,
     generate (MkNode None) prompt image_size num_inference_steps
       guidance_scale num_images seed kwargs =
     (Raise (new_exn ValueError
               "API key is not set. Please check your config.ini file."), [])).
Proof.
  split_and!; try reflexivity.
  unfold __init__, environ_setitem.
  destruct (get_api_key config_file) as [key|]; [|reflexivity].
  by destruct (has_nul key).
Qed.

(** ** Further properties: the log of a computation *)

Section Logs.
Context {A B : Type}.

Lemma log_bind (m : M A) (k : A → M B) :
  log_of (bind m k) =
  log_of m ++ match value m with Ok a => log_of (k a) | Raise _ => [] end.
Proof.
  destruct m as [[a|e] l]; cbn; [|by rewrite app_nil_r].
  destruct (k a) as [r l']; reflexivity.
Qed.

Lemma log_try_except (m : M A) (h : exn → M A) :
  log_of (try_except m h) =
  log_of m ++ match value m with Ok _ => [] | Raise e => log_of (h e) end.
Proof.
  destruct m as [[a|e] l]; cbn; [by rewrite app_nil_r|].
  destruct (h e) as [r l']; reflexivity.
Qed.

End Logs.

(** ** Further properties: every returned tensor is well formed *)

Section TensorInvariant.
Context `{Externals}.

Lemma np_array_rgb_shape img arr :
  PIL.mode img = "RGB" → np_array img = Ok arr →
  Np.shape arr = [(PIL.size img).2; (PIL.size img).1; 3%nat].
Proof.
  intros Hmode. unfold np_array. rewrite Hmode.
  destruct (Image_load img); [|discriminate].
  destruct (PIL.size img) as [w h]. intros [= <-]. reflexivity.
Qed.

(** Whatever image reaches [to_tensor], the tensor that comes out has the
    shape (height, width, 3) and values in the unit interval. *)
Lemma to_tensor_Ok img t :
  value (to_tensor img) = Ok t → tensor_ok t.
Proof.
  unfold to_tensor. autorewrite with py_value.
  destruct (String.eqb (PIL.mode img) "RGB") eqn:Hmode; cbn [negb].
  - apply String.eqb_eq in Hmode. autorewrite with py_value.
    destruct (np_array img) as [arr|e] eqn:Harr; [|discriminate].
    autorewrite with py_value. intros [= <-]. split.
    + eexists _, _. cbn [Np.astype_float32_div255 Np.shape].
      by apply np_array_rgb_shape.
    + apply astype_float32_div255_unit_interval.
  - autorewrite with py_value.
    destruct (Image_convert img "RGB") as [img'|e] eqn:Hconv; [|discriminate].
    destruct (Image_convert_Ok _ _ _ Hconv) as (Hm & _ & _).
    destruct (np_array img') as [arr|e] eqn:Harr; [|discriminate].
    autorewrite with py_value. intros [= <-]. split.
    + eexists _, _. cbn [Np.astype_float32_div255 Np.shape].
      by apply np_array_rgb_shape.
    + apply astype_float32_div255_unit_interval.
Qed.

End TensorInvariant.

(** ** Further properties: what a decoded descriptor went through *)

Section DecodedInversion.
Context `{Externals}.

(** A descriptor contributes a tensor only along one path: it is a dict whose
    url is a non-empty string, the url yields bytes, the bytes give an image
    (opened or rebuilt by the fallback), and the image converts. *)
Lemma decoded_Some_inv img_info t :
  decoded img_info = Some t →
  ∃ d url img_data img,
    img_info = JDict d ∧ d !! "url" = Some (JStr url) ∧ url ≠ "" ∧
    value (fetch_image_data 0 url) = Ok (Some img_data) ∧
    value (open_image img_data) = Ok img ∧
    value (to_tensor img) = Ok t.
Proof.
  unfold decoded, process_image. autorewrite with py_value.
  destruct (invalid_image_info img_info) eqn:Hinv.
  { autorewrite with py_value. discriminate. }
  destruct img_info as [| | | | |l|d]; try discriminate Hinv.
  cbn [invalid_image_info image_url] in *.
  destruct (d !! "url") as [url|] eqn:Hurl; [|discriminate Hinv].
  autorewrite with py_value.
  destruct url as [| | | |url| |]; autorewrite with py_value; try discriminate.
  cbn [truthy] in Hinv. apply negb_false_iff, negb_true_iff in Hinv.
  apply String.eqb_neq in Hinv.
  destruct (value (fetch_image_data 0 url)) as [[img_data|]|e] eqn:Hfetch;
    autorewrite with py_value; try discriminate.
  destruct (value (open_image img_data)) as [img|e] eqn:Himg;
    autorewrite with py_value; try discriminate.
  destruct (value (to_tensor img)) as [t'|e] eqn:Ht;
    autorewrite with py_value; try discriminate.
  intros [= <-]. by exists d, url, img_data, img.
Qed.

(** Conversely, the bytes behind the url decide the outcome. *)
Lemma decoded_of_fetched d url img_data :
  d !! "url" = Some (JStr url) → url ≠ "" →
  value (fetch_image_data 0 url) = Ok (Some img_data) →
  decoded (JDict d) =
  match value (open_image img_data) with
  | Ok img =>
      match value (to_tensor img) with
      | Ok t => Some t
      | Raise _ => None
      end
  | Raise _ => None
  end.
Proof.
  intros Hurl Hne Hfetch.
  unfold decoded, process_image. autorewrite with py_value.
  unfold invalid_image_info, image_url. rewrite Hurl. cbn [truthy].
  apply String.eqb_neq in Hne. rewrite Hne. cbn [negb].
  autorewrite with py_value. rewrite Hfetch.
  autorewrite with py_value.
  destruct (value (open_image img_data)) as [img|e];
    autorewrite with py_value; [|reflexivity].
  destruct (value (to_tensor img)) as [t|e];
    autorewrite with py_value; reflexivity.
Qed.

End DecodedInversion.

Section ReturnedTensors.
Context `{Externals}.

Lemma omap_decoded_ok (images : list json) :
  Forall tensor_ok (omap decoded images).
Proof.
  induction images as [|img_info rest IH]; cbn -[decoded]; [constructor|].
  destruct (decoded img_info) as [t|] eqn:Hd; [|exact IH].
  constructor; [|exact IH].
  destruct (decoded_Some_inv _ _ Hd) as (d & url & img_data & img & _ & _ & _
                                         & _ & _ & Ht).
  by apply to_tensor_Ok with (img := img).
Qed.

(** [generate] returns only after the guard, the submission and the test for
    images have passed, and then it returns the tensors of the loop. *)
Lemma generate_Ok_inv self prompt image_size num_inference_steps
    guidance_scale num_images seed kwargs output_images :
  value (generate self prompt image_size num_inference_steps guidance_scale
           num_images seed kwargs) = Ok output_images →
  api_key_missing self = false ∧
  ∃ result images,
    fal_client_submit "fal-ai/flux-lora"
      (arguments prompt image_size num_inference_steps guidance_scale
         num_images seed kwargs) = Ok result ∧
    no_images result = false ∧
    py_iter (default JNull (result !! "images")) = Ok images ∧
    output_images = omap decoded images ∧ output_images ≠ [].
Proof.
  intros Hrun.
  destruct (api_key_missing self) eqn:Hkey.
  { unfold generate in Hrun. rewrite Hkey in Hrun. discriminate Hrun. }
  split; [reflexivity|].
  destruct (fal_client_submit "fal-ai/flux-lora"
              (arguments prompt image_size num_inference_steps guidance_scale
                 num_images seed kwargs)) as [result|e] eqn:Hsubmit.
  - rewrite (generate_on_response _ _ _ _ _ _ _ _ result Hkey Hsubmit) in Hrun.
    destruct (no_images result) eqn:Hno; [discriminate|].
    destruct (py_iter _) as [images|e] eqn:Hiter; [|discriminate].
    destruct (omap decoded images) as [|t ts] eqn:Hout; [discriminate|].
    injection Hrun as <-. exists result, images. by split_and!.
  - unfold generate in Hrun. rewrite Hkey in Hrun.
    autorewrite with py_value in Hrun. rewrite Hsubmit in Hrun.
    autorewrite with py_value in Hrun.
    destruct (exn_response e) as [[text|]|];
      autorewrite with py_value in Hrun; discriminate Hrun.
Qed.

End ReturnedTensors.

(** X1. Whenever [generate] returns, the node has a key, the list is not
    empty, and every tensor in it has three dimensions, the last of size 3,
    with all values between 0.0 and 1.0: whatever the response held and
    whatever the libraries did. *)
Theorem returned_tensors_well_formed (E : Externals) (self : FalAPIFluxNode)
    (prompt image_size : string) (num_inference_steps : Z)
    (guidance_scale : float) (num_images : Z) (seed : option Z)
    (kwargs : gmap string json) (output_images : list Tensor) :
  value (generate self prompt image_size num_inference_steps guidance_scale
           num_images seed kwargs) = Ok output_images →
  api_key_missing self = false ∧ output_images ≠ [] ∧
  Forall tensor_ok output_images.
Proof.
  intros Hrun.
  destruct (generate_Ok_inv _ _ _ _ _ _ _ _ _ Hrun)
    as (Hkey & result & images & _ & _ & _ & -> & Hne).
  split_and!; [exact Hkey | exact Hne | apply omap_decoded_ok].
Qed.

Lemma returned_tensors_well_formed_witness :
  ∃ output_images,
    value (@generate
             (Sample.externals
                (Ok (Sample.response_of
                       [Sample.pixel_uri; Sample.malformed_uri; Sample.grey_uri])))
             Sample.node "a cat" "square_hd" 28 (Np.f64_of_Z 3) 3 None ∅)
      = Ok output_images ∧
    Forall tensor_ok output_images.
Proof.
  eexists. split; [vm_compute; reflexivity|].
  refine (proj2 (proj2 (returned_tensors_well_formed
            (Sample.externals
               (Ok (Sample.response_of
                      [Sample.pixel_uri; Sample.malformed_uri; Sample.grey_uri])))
            Sample.node "a cat" "square_hd" 28 (Np.f64_of_Z 3) 3 None ∅ _ _))).
  vm_compute. reflexivity.
Defined.

(** ** Further properties: from bytes to tensor *)

(** X2. Two descriptors whose urls yield the same bytes, inline or remote,
    contribute the same: the outcome depends on the url only through the
    bytes behind it. *)
Theorem same_bytes_same_tensor (E : Externals) (d1 d2 : gmap string json)
    (url1 url2 : string) (img_data : list byte) :
  d1 !! "url" = Some (JStr url1) → url1 ≠ "" →
  d2 !! "url" = Some (JStr url2) → url2 ≠ "" →
  value (fetch_image_data 0 url1) = Ok (Some img_data) →
  value (fetch_image_data 0 url2) = Ok (Some img_data) →
  decoded (JDict d1) = decoded (JDict d2).
Proof.
  intros Hurl1 Hne1 Hurl2 Hne2 Hfetch1 Hfetch2.
  rewrite (decoded_of_fetched d1 url1 img_data Hurl1 Hne1 Hfetch1).
  rewrite (decoded_of_fetched d2 url2 img_data Hurl2 Hne2 Hfetch2).
  reflexivity.
Qed.

Lemma same_bytes_same_tensor_witness :
  @decoded (Sample.externals (Ok ∅)) (Sample.descriptor Sample.pixel_uri) =
  @decoded (Sample.externals (Ok ∅))
    (JDict {[ "url" := JStr "data:image/png;name=a,UgEB/wCA";
              "content_type" := JStr "image/png" ]}).
Proof.
  apply (same_bytes_same_tensor (Sample.externals (Ok ∅)) _ _
           Sample.pixel_uri "data:image/png;name=a,UgEB/wCA"
           ["R"; "001"; "001"; "255"; "000"; "128"]%byte);
    first [reflexivity | discriminate].
Defined.

Lemma astype_l2rgb (shape : list nat) (samples : list byte) :
  Np.data (Np.astype_float32_div255 (Np.NdArray shape (PIL.l2rgb samples))) =
  samples ≫= (λ v, [unit_of_sample v; unit_of_sample v; unit_of_sample v]).
Proof.
  unfold Np.astype_float32_div255, PIL.l2rgb. cbn [Np.data].
  induction samples as [|v samples IH]; [reflexivity|].
  cbn. f_equal. f_equal. f_equal. exact IH.
Qed.

Lemma bind_triple_length {A B} (f : A → B) (l : list A) :
  length (l ≫= (λ v, [f v; f v; f v])) = (3 * length l)%nat.
Proof. induction l as [|v l IH]; [reflexivity|]. cbn in *. rewrite IH. lia. Qed.

(** X3. Bytes that are not empty and that [Image.open] rejects are never
    dropped: the fallback turns any such buffer into a grey image, of shape
    (32, 32, 3) for 1024 bytes and (n, 1, 3) for [n] other bytes, with three
    equal values per sample. *)
Theorem undecodable_bytes_become_image (E : Externals) (d : gmap string json)
    (url : string) (img_data : list byte) (e : exn) :
  d !! "url" = Some (JStr url) → url ≠ "" →
  value (fetch_image_data 0 url) = Ok (Some img_data) →
  Image_open img_data = Raise e →
  img_data ≠ [] →
  ∃ t samples,
    decoded (JDict d) = Some t ∧
    Np.shape t =
      (if decide (length img_data = 1024%nat) then [32; 32; 3]%nat
       else [length img_data; 1; 3]%nat) ∧
    length samples = length img_data ∧
    Np.data t =
      samples ≫= (λ v, [unit_of_sample v; unit_of_sample v; unit_of_sample v]) ∧
    length (Np.data t) = (3 * length img_data)%nat ∧
    tensor_ok t.
Proof.
  intros Hurl Hne Hfetch Hopen Hdata.
  destruct img_data as [|b rest]; [done|].
  set (samples := stretched (foldl Np.u8_min b rest) (foldl Np.u8_max b rest)
                    <$> (b :: rest)).
  set (size := if decide (length (b :: rest) = 1024%nat) then (32, 32)%nat
               else (1, length (b :: rest))%nat).
  assert (Hfrom : PIL.fromarray
                    (Np.NdArray (raw_shape (length (b :: rest))) samples) "L"
                  = Ok (PIL.MkImage "L" size (PIL.Loaded samples))).
  { unfold raw_shape, size. by destruct (decide (length (b :: rest) = 1024%nat)). }
  pose proof (open_image_fallback b rest e Hopen samples _ eq_refl Hfrom) as Himg.
  cbn [PIL.size] in Himg.
  set (img := PIL.MkImage "RGB" size (PIL.Loaded (PIL.l2rgb samples))) in Himg.
  pose proof (to_tensor_rgb_value img (PIL.l2rgb samples) eq_refl eq_refl) as Ht.
  cbn [PIL.size img] in Ht.
  eexists _, samples. split_and!.
  - rewrite (decoded_of_fetched d url (b :: rest) Hurl Hne Hfetch).
    rewrite Himg, Ht. reflexivity.
  - cbn [Np.astype_float32_div255 Np.shape]. unfold size.
    by destruct (decide (length (b :: rest) = 1024%nat)).
  - unfold samples. by rewrite length_fmap.
  - apply astype_l2rgb.
  - rewrite astype_l2rgb, bind_triple_length. unfold samples.
    by rewrite length_fmap.
  - by apply to_tensor_Ok with (img := img).
Qed.

Lemma undecodable_bytes_become_image_witness :
  ∃ t, @decoded (Sample.externals (Ok ∅))
         (Sample.descriptor "data:image/raw;base64,AAEC") = Some t ∧
       Np.shape t = [3; 1; 3]%nat.
Proof.
  destruct (undecodable_bytes_become_image (Sample.externals (Ok ∅))
              {[ "url" := JStr "data:image/raw;base64,AAEC" ]}
              "data:image/raw;base64,AAEC" ["000"; "001"; "002"]%byte
              (new_exn OSError "cannot identify image file"))
    as (t & samples & Hd & Hshape & _); try first [reflexivity | discriminate].
  exists t. split; [exact Hd | exact Hshape].
Defined.

(** X4. An empty byte string that [Image.open] rejects is dropped: the
    minimum of the empty array raises, the handler of the loop body logs the
    failure under the index of the descriptor, and nothing is appended. *)
Theorem empty_bytes_dropped (E : Externals) (index : nat)
    (d : gmap string json) (url : string) (e : exn) :
  d !! "url" = Some (JStr url) → url ≠ "" →
  value (fetch_image_data index url) = Ok (Some []) →
  Image_open [] = Raise e →
  decoded (JDict d) = None ∧
  last (log_of (process_image index (JDict d))) =
    Some (Log.ERROR,
          Log.ProcessFailed index
            "zero-size array to reduction operation minimum which has no identity").
Proof.
  intros Hurl Hne Hfetch Hopen.
  assert (Himg : value (open_image []) =
            Raise (new_exn ValueError
                     "zero-size array to reduction operation minimum which has no identity")).
  { unfold open_image. autorewrite with py_value. rewrite Hopen.
    autorewrite with py_value. rewrite raw_pixel_array_nil. reflexivity. }
  split.
  - rewrite (fetch_image_data_index index 0) in Hfetch.
    rewrite (decoded_of_fetched d url [] Hurl Hne Hfetch). by rewrite Himg.
  - unfold process_image. rewrite log_try_except.
    autorewrite with py_value.
    unfold invalid_image_info, image_url. rewrite Hurl. cbn [truthy].
    apply String.eqb_neq in Hne. rewrite Hne. cbn [negb].
    autorewrite with py_value. rewrite Hfetch.
    autorewrite with py_value. rewrite Himg.
    apply last_snoc.
Qed.

Lemma empty_bytes_dropped_witness :
  @decoded (Sample.externals (Ok ∅))
    (Sample.descriptor "data:image/raw;base64,") = None.
Proof.
  refine (proj1 (empty_bytes_dropped (Sample.externals (Ok ∅)) 0
                   {[ "url" := JStr "data:image/raw;base64," ]}
                   "data:image/raw;base64,"
                   (new_exn OSError "cannot identify image file") _ _ _ _));
    first [reflexivity | discriminate].
Defined.

(** ** Further properties: what the loop body reads of a descriptor *)

(** X5. A descriptor whose url is not a string is dropped, whatever the url
    is: falsy values fail the test of line 102, and truthy numbers, booleans,
    lists and dicts raise at the slice or at [startswith], which the handler
    of the loop body absorbs. *)
Theorem non_string_url_dropped (E : Externals) (d : gmap string json)
    (url : json) :
  d !! "url" = Some url → (∀ s, url ≠ JStr s) → decoded (JDict d) = None.
Proof.
  intros Hurl Hstr. unfold decoded, process_image. autorewrite with py_value.
  unfold invalid_image_info, image_url. rewrite Hurl.
  destruct (truthy url); cbn [negb]; autorewrite with py_value;
    [|reflexivity].
  destruct url as [| | | |s| |]; autorewrite with py_value; try reflexivity.
  by destruct (Hstr s).
Qed.

Lemma non_string_url_dropped_witness :
  @decoded (Sample.externals (Ok ∅))
    (JDict {[ "url" := JList [JStr Sample.pixel_uri] ]}) = None.
Proof.
  apply (non_string_url_dropped (Sample.externals (Ok ∅)) _
           (JList [JStr Sample.pixel_uri]));
    [reflexivity | discriminate].
Defined.

(** X6. Of a descriptor only the ["url"] entry is read: two dicts with the
    same url contribute the same, whatever else they hold (content type,
    width, height, ...). *)
Theorem only_url_is_read (E : Externals) (d d' : gmap string json) :
  d !! "url" = d' !! "url" → decoded (JDict d) = decoded (JDict d').
Proof.
  intros Hurl. unfold decoded, process_image. autorewrite with py_value.
  unfold invalid_image_info, image_url. rewrite Hurl. reflexivity.
Qed.

Lemma only_url_is_read_witness :
  @decoded (Sample.externals (Ok ∅))
    (JDict {[ "url" := JStr Sample.grey_uri; "width" := JInt 2;
              "height" := JInt 1; "content_type" := JStr "image/raw" ]}) =
  @decoded (Sample.externals (Ok ∅)) (Sample.descriptor Sample.grey_uri).
Proof.
  apply (only_url_is_read (Sample.externals (Ok ∅))). reflexivity.
Defined.

Lemma split_comma_once_cons (c : ascii) (rest : string) :
  split_comma_once (String c rest) =
  if Ascii.eqb c ","%char then [EmptyString; rest]
  else match split_comma_once rest with
       | hd :: tl => String c hd :: tl
       | [] => [String c EmptyString]
       end.
Proof. reflexivity. Qed.

Lemma split_comma_once_app (header payload : string) :
  comma_free header = true →
  split_comma_once (header +:+ "," +:+ payload) = [header; payload].
Proof.
  induction header as [|c header IH]; intros Hfree; [reflexivity|].
  cbn [comma_free] in Hfree. apply andb_prop in Hfree as [Hc Hfree].
  apply negb_true_iff in Hc.
  change (String c header +:+ "," +:+ payload)
    with (String c (header +:+ "," +:+ payload)).
  by rewrite split_comma_once_cons, Hc, (IH Hfree).
Qed.

(** X7. For a data URI the bytes are the base64 decoding of everything after
    the first comma, whatever the header announces, and the HTTP client is
    not consulted; a payload that base64 rejects skips the descriptor. *)
Theorem data_uri_payload (E : Externals) (index : nat)
    (header payload : string) :
  comma_free header = true →
  startswith (header +:+ "," +:+ payload) "data:image" = true →
  fetch_image_data index (header +:+ "," +:+ payload) =
  match b64decode payload with
  | Ok img_data => (Ok (Some img_data), [])
  | Raise e =>
      if isinstance_exn e ValueError
      then (Ok None, [(Log.ERROR, Log.SplitFailed index)])
      else (Raise e, [])
  end.
Proof.
  intros Hfree Hstart. unfold fetch_image_data, try_except_class.
  rewrite Hstart, (split_comma_once_app _ _ Hfree). cbn [unpack2].
  unfold bind, try_except, lift, ret, raise, logger_error. cbn [snd].
  destruct (b64decode payload) as [img_data|e]; [reflexivity|].
  destruct (isinstance_exn e ValueError); reflexivity.
Qed.

Lemma data_uri_payload_witness :
  @fetch_image_data (Sample.externals (Ok ∅)) 0
    ("data:image/jpeg;charset=x" +:+ "," +:+ "UgEB/wCA") =
  (Ok (Some ["R"; "001"; "001"; "255"; "000"; "128"]%byte), []).
Proof.
  rewrite (data_uri_payload (Sample.externals (Ok ∅)) 0
             "data:image/jpeg;charset=x" "UgEB/wCA" eq_refl eq_refl).
  reflexivity.
Defined.

(** ** Further properties: the payload *)

Lemma lora_keys_eq :
  lora_keys = ["lora_1"; "lora_2"; "lora_3"; "lora_4"; "lora_5"].
Proof. reflexivity. Qed.

(** X8. The payload always carries the five core parameters as given and
    [enable_safety_checker] set to true, and holds no entry outside the eight
    payload keys. *)
Theorem payload_core_fields (prompt image_size : string)
    (num_inference_steps : Z) (guidance_scale : float) (num_images : Z)
    (seed : option Z) (kwargs : gmap string json) :
  let payload := arguments prompt image_size num_inference_steps
                   guidance_scale num_images seed kwargs in
  payload !! "prompt" = Some (JStr prompt) ∧
  payload !! "image_size" = Some (JStr image_size) ∧
  payload !! "num_inference_steps" = Some (JInt num_inference_steps) ∧
  payload !! "guidance_scale" = Some (JFloat guidance_scale) ∧
  payload !! "num_images" = Some (JInt num_images) ∧
  payload !! "enable_safety_checker" = Some (JBool true) ∧
  (∀ key, is_Some (payload !! key) → key ∈ payload_keys).
Proof.
  intros payload. subst payload. unfold arguments, payload_keys.
  destruct (lora_list kwargs) as [|lora loras];
    destruct seed as [s|]; try destruct (s =? 0); cbn [negb];
    (split_and!; [by simplify_map_eq .. |]);
    intros key [v Hkey];
    repeat (apply lookup_insert_Some in Hkey as [[<- _]|[_ Hkey]];
            [set_solver|]);
    by rewrite lookup_empty in Hkey.
Qed.

(** X9. Of [kwargs] only the five LoRA slots are read: two calls whose
    [kwargs] agree on [lora_1] .. [lora_5] build the same payload, so no other
    keyword (a safety switch, a sixth LoRA slot) reaches fal.ai. *)
Theorem payload_ignores_other_kwargs (prompt image_size : string)
    (num_inference_steps : Z) (guidance_scale : float) (num_images : Z)
    (seed : option Z) (kwargs kwargs' : gmap string json) :
  (∀ key, key ∈ lora_keys → kwargs !! key = kwargs' !! key) →
  arguments prompt image_size num_inference_steps guidance_scale num_images
    seed kwargs =
  arguments prompt image_size num_inference_steps guidance_scale num_images
    seed kwargs'.
Proof.
  intros Hagree.
  assert (Hloras : lora_list kwargs = lora_list kwargs').
  { rewrite !lora_list_slots, <- lora_keys_eq. f_equal.
    apply list_omap_ext, Forall2_same_length_lookup. split; [reflexivity|].
    intros i key key' Hkey Hkey'. simplify_eq.
    apply Hagree. by apply list_elem_of_lookup_2 with (i := i). }
  unfold arguments. by rewrite Hloras.
Qed.

Lemma payload_ignores_other_kwargs_witness :
  arguments "a cat" "square_hd" 28 (Np.f64_of_Z 3) 1 None
    {[ "lora_1" := JDict {[ "path" := JStr "a.safetensors" ]};
       "enable_safety_checker" := JBool false;
       "lora_6" := JDict {[ "path" := JStr "f.safetensors" ]} ]} =
  arguments "a cat" "square_hd" 28 (Np.f64_of_Z 3) 1 None
    {[ "lora_1" := JDict {[ "path" := JStr "a.safetensors" ]} ]}.
Proof.
  apply payload_ignores_other_kwargs.
  intros key Hkey. rewrite lora_keys_eq in Hkey.
  repeat (apply elem_of_cons in Hkey as [->|Hkey]; [reflexivity|]).
  by apply elem_of_nil in Hkey.
Defined.

(** ** Further properties: no descriptor is lost without a record *)

Ltac find_record :=
  solve [ cbn;
          apply list_elem_of_In;
          repeat first [rewrite in_app_iff | progress cbn [In app]];
          eauto 12 ].

Section DropRecords.
Context `{Externals}.

(** When the fetch step skips a descriptor, it has logged why. *)
Lemma fetch_image_data_None_logged index url l :
  fetch_image_data index url = (Ok None, l) →
  ∃ msg, drop_record index msg ∧ (Log.ERROR, msg) ∈ l.
Proof.
  unfold fetch_image_data, try_except_class, try_except, bind, lift, ret,
    raise, logger_error.
  destruct (startswith url "data:image").
  - destruct (unpack2 (split_comma_once url)) as [parts|e].
    + destruct (b64decode parts.2) as [img_data|e]; [discriminate|].
      destruct (isinstance_exn e ValueError); [|discriminate].
      intros [= <-]. exists (Log.SplitFailed index).
      split; [unfold drop_record; auto | set_solver].
    + destruct (isinstance_exn e ValueError); [|discriminate].
      intros [= <-]. exists (Log.SplitFailed index).
      split; [unfold drop_record; auto | set_solver].
  - destruct (requests_get url) as [content|e]; [discriminate|].
    destruct (isinstance_exn e RequestException); [|discriminate].
    intros [= <-]. exists (Log.DownloadFailed index (str e)).
    split; [unfold drop_record; eauto | set_solver].
Qed.

End DropRecords.

(** X10. No descriptor is dropped silently: when a descriptor contributes
    nothing, the log of its processing holds an error record that names its
    index: invalid image info, failed split, failed download, or failed
    processing. *)
Theorem dropped_descriptor_logged (E : Externals) (index : nat)
    (img_info : json) :
  decoded img_info = None →
  ∃ msg, drop_record index msg ∧
         (Log.ERROR, msg) ∈ log_of (process_image index img_info).
Proof.
  intros Hdropped.
  pose proof (process_image_decoded index img_info) as Hvalue.
  rewrite Hdropped in Hvalue. revert Hvalue.
  unfold process_image, value, log_of.
  assert (Hfailed : ∀ text (l : list Log.record),
    (Log.ERROR, Log.ProcessFailed index text) ∈ l →
    ∃ msg, drop_record index msg ∧ (Log.ERROR, msg) ∈ l).
  { intros text l Hin. exists (Log.ProcessFailed index text).
    split; [unfold drop_record; eauto 6 | exact Hin]. }
  destruct (invalid_image_info img_info).
  { intros _. exists (Log.InvalidImageInfo index).
    split; [unfold drop_record; auto | cbn; set_solver]. }
  destruct (image_url img_info) as [img_url|e];
    [|intros _; eapply Hfailed; find_record].
  destruct img_url as [| | | |url| |]; try (intros _; eapply Hfailed; find_record).
  cbn -[fetch_image_data open_image to_tensor].
  destruct (fetch_image_data index url) as [[[img_data|]|e] lf] eqn:Hfetch;
    cbn -[open_image to_tensor].
  - destruct (open_image img_data) as [[img|e] lo];
      cbn -[to_tensor]; [|intros _; eapply Hfailed; find_record].
    destruct (to_tensor img) as [[t|e] lt]; cbn;
      [discriminate | intros _; eapply Hfailed; find_record].
  - intros _.
    destruct (fetch_image_data_None_logged _ _ _ Hfetch) as (msg & Hmsg & Hin).
    exists msg. split; [exact Hmsg | set_solver].
  - intros _. eapply Hfailed. find_record.
Qed.

Lemma dropped_descriptor_logged_witness :
  ∃ msg, drop_record 1 msg ∧
    (Log.ERROR, msg) ∈
      log_of (@process_image (Sample.externals (Ok ∅)) 1
                (Sample.descriptor Sample.malformed_uri)).
Proof.
  apply (dropped_descriptor_logged (Sample.externals (Ok ∅)) 1
           (Sample.descriptor Sample.malformed_uri)).
  reflexivity.
Defined.

(** ** Further properties: construction and the configuration error *)

(** X11. When the constructor succeeds, the configuration file exists and
    has a [falai] section, the key is the [api_key] of that section or, when
    the section has none, of the DEFAULT section; the node holds that key,
    [FAL_KEY] is set to it, and no other environment variable changes. *)
Theorem construction_exports_key (config_file : option ConfigParser)
    (environ environ' : gmap string string) (node : FalAPIFluxNode) :
  __init__ config_file environ = Ok (node, environ') →
  ∃ config section key,
    config_file = Some config ∧
    sections config !! "falai" = Some section ∧
    (section !! "api_key" = Some key ∨
     (section !! "api_key" = None ∧ defaults config !! "api_key" = Some key)) ∧
    api_key node = Some key ∧
    environ' !! "FAL_KEY" = Some key ∧
    (∀ name, name ≠ "FAL_KEY" → environ' !! name = environ !! name).
Proof.
  unfold __init__, get_api_key, config_get, environ_setitem.
  destruct config_file as [config|]; [|discriminate].
  destruct (sections config !! "falai") as [section|] eqn:Hsection;
    [|discriminate].
  destruct (section !! "api_key") as [key|] eqn:Hkey.
  - destruct (has_nul key); [discriminate|].
    intros [= <- <-]. exists config, section, key.
    split_and!; auto; [by rewrite lookup_insert_eq|].
    intros name Hname. by rewrite lookup_insert_ne.
  - destruct (defaults config !! "api_key") as [key|] eqn:Hdefault;
      [|discriminate].
    destruct (has_nul key); [discriminate|].
    intros [= <- <-]. exists config, section, key.
    split_and!; auto; [by rewrite lookup_insert_eq|].
    intros name Hname. by rewrite lookup_insert_ne.
Qed.

Lemma construction_exports_key_witness :
  ∃ node environ',
    __init__ (Some (MkConfig {[ "api_key" := "key-123" ]} {[ "falai" := ∅ ]}))
      {[ "HOME" := "/root" ]} = Ok (node, environ') ∧
    api_key node = Some "key-123" ∧
    environ' !! "FAL_KEY" = Some "key-123" ∧
    environ' !! "HOME" = Some "/root".
Proof.
  assert (Hinit :
    __init__ (Some (MkConfig {[ "api_key" := "key-123" ]} {[ "falai" := ∅ ]}))
      {[ "HOME" := "/root" ]} =
    Ok (MkNode (Some "key-123"),
        <["FAL_KEY" := "key-123"]> {[ "HOME" := "/root" ]})).
  { vm_compute. reflexivity. }
  destruct (construction_exports_key _ _ _ _ Hinit)
    as (config & section & key & _ & _ & _ & Hnode & Henv & Hframe).
  eexists _, _. split; [exact Hinit|].
  split_and!; [reflexivity | reflexivity |].
  rewrite (Hframe "HOME") by discriminate. reflexivity.
Defined.

Lemma py_iter_Raise (v : json) (e : exn) :
  py_iter v = Raise e → e = new_exn TypeError "object is not iterable".
Proof. destruct v; cbn; congruence. Qed.

(** X12. On a constructed node, [generate] raises the configuration error
    exactly when the exported key is the empty string, and then it has
    neither logged nor submitted anything; with any other key the call gets
    past the guard. *)
Theorem configuration_error_iff_empty_key (E : Externals)
    (config_file : option ConfigParser) (environ environ' : gmap string string)
    (node : FalAPIFluxNode) (prompt image_size : string)
    (num_inference_steps : Z) (guidance_scale : float) (num_images : Z)
    (seed : option Z) (kwargs : gmap string json) :
  __init__ config_file environ = Ok (node, environ') →
  let run := generate node prompt image_size num_inference_steps
               guidance_scale num_images seed kwargs in
  (environ' !! "FAL_KEY" = Some "" →
   run = (Raise (new_exn ValueError
                   "API key is not set. Please check your config.ini file."), [])) ∧
  (environ' !! "FAL_KEY" ≠ Some "" →
   ∀ e, value run = Raise e → exn_cls e ≠ ValueError) ∧
  (environ' !! "FAL_KEY" ≠ Some "" →
   head (log_of run) =
     Some (Log.DEBUG,
           Log.RequestPayload
             (arguments prompt image_size num_inference_steps guidance_scale
                num_images seed kwargs))).
Proof.
  intros Hinit run.
  assert (Hnode : ∃ key, api_key node = Some key ∧
                         environ' !! "FAL_KEY" = Some key).
  { unfold __init__, environ_setitem in Hinit.
    destruct (get_api_key config_file) as [key|]; [|discriminate].
    destruct (has_nul key); [discriminate|].
    injection Hinit as <- <-. exists key. by rewrite lookup_insert_eq. }
  destruct Hnode as (key & Hkey & Henv). rewrite Henv.
  assert (Hmissing : api_key_missing node = String.eqb key "").
  { unfold api_key_missing. by rewrite Hkey. }
  split_and!.
  - intros [= ->]. subst run. unfold generate. by rewrite Hmissing.
  - intros Hne e Hrun Hcls.
    assert (Hpresent : api_key_missing node = false).
    { rewrite Hmissing. apply String.eqb_neq. congruence. }
    subst run.
    destruct (fal_client_submit "fal-ai/flux-lora"
                (arguments prompt image_size num_inference_steps
                   guidance_scale num_images seed kwargs))
      as [result|e'] eqn:Hsubmit.
    + rewrite (generate_on_response _ _ _ _ _ _ _ _ result Hpresent Hsubmit)
        in Hrun.
      destruct (no_images result); [by injection Hrun as <-|].
      destruct (py_iter _) as [images|e'] eqn:Hiter.
      * destruct (omap decoded images); [by injection Hrun as <-|discriminate].
      * apply py_iter_Raise in Hiter. injection Hrun as <-. by subst e'.
    + unfold generate in Hrun. rewrite Hpresent in Hrun.
      autorewrite with py_value in Hrun. rewrite Hsubmit in Hrun.
      autorewrite with py_value in Hrun.
      destruct (exn_response e') as [[text|]|];
        autorewrite with py_value in Hrun; by injection Hrun as <-.
  - intros Hne.
    assert (Hpresent : api_key_missing node = false).
    { rewrite Hmissing. apply String.eqb_neq. congruence. }
    subst run. unfold generate. rewrite Hpresent.
    rewrite log_bind. reflexivity.
Qed.

Lemma configuration_error_iff_empty_key_witness :
  ∃ node environ',
    __init__ (Some (MkConfig ∅ {[ "falai" := {[ "api_key" := "" ]} ]})) ∅
      = Ok (node, environ') ∧
    @generate (Sample.externals (Ok ∅)) node "a cat" "square_hd" 28
      (Np.f64_of_Z 3) 1 None ∅ =
    (Raise (new_exn ValueError
              "API key is not set. Please check your config.ini file."), []).
Proof.
  assert (Hinit :
    __init__ (Some (MkConfig ∅ {[ "falai" := {[ "api_key" := "" ]} ]})) ∅ =
    Ok (MkNode (Some ""), <["FAL_KEY" := ""]> ∅)).
  { vm_compute. reflexivity. }
  eexists _, _. split; [exact Hinit|].
  apply (configuration_error_iff_empty_key (Sample.externals (Ok ∅))
           _ _ _ _ "a cat" "square_hd" 28 (Np.f64_of_Z 3) 1 None ∅ Hinit).
  reflexivity.
Defined.

(** ** Further properties: the input schema against [generate] *)

(** X13. The schema and [generate] agree: the LoRA sockets declared as
    optional inputs are, in order, exactly the keys [generate] reads from
    [kwargs]; the input names are pairwise distinct; every numeric default
    lies within its bounds; and the declared default of [seed] is a seed that
    the payload leaves out. *)
Theorem input_schema_matches_generate :
  (Schema.optional INPUT_TYPES ≫=
     (λ input, if Schema.is_lora input.2 then [input.1] else [])) = lora_keys ∧
  NoDup ((Schema.required INPUT_TYPES ++ Schema.optional INPUT_TYPES).*1) ∧
  Forall (λ input, Schema.default_in_range input.2 = true)
    (Schema.required INPUT_TYPES ++ Schema.optional INPUT_TYPES) ∧
  (∀ default lo hi prompt image_size num_inference_steps guidance_scale
     num_images kwargs,
     ("seed", Schema.INT default lo hi) ∈ Schema.optional INPUT_TYPES →
     arguments prompt image_size num_inference_steps guidance_scale
       num_images (Some default) kwargs !! "seed" = None).
Proof.
  split_and!.
  - reflexivity.
  - apply (bool_decide_unpack _). vm_compute. exact I.
  - repeat constructor.
  - intros default lo hi prompt image_size num_inference_steps guidance_scale
      num_images kwargs Hin.
    assert (default = 0) as ->.
    { cbn in Hin.
      repeat (apply elem_of_cons in Hin as [Hin|Hin]; [congruence|]).
      by apply elem_of_nil in Hin. }
    unfold arguments. cbn [Z.eqb negb].
    destruct (lora_list kwargs); by simplify_map_eq.
Qed.

(** ** Further properties: the stretch of the raw samples *)

Lemma foldl_u8_min_elem (l : list byte) : ∀ b, foldl Np.u8_min b l ∈ b :: l.
Proof.
  induction l as [|y l IH]; intros b; cbn [foldl]; [apply list_elem_of_here|].
  pose proof (IH (Np.u8_min b y)) as Hin.
  apply elem_of_cons in Hin as [Heq|Hin].
  - rewrite Heq. unfold Np.u8_min.
    destruct (Np.u8 y <? Np.u8 b); [right; left | left].
  - right. right. exact Hin.
Qed.

Lemma foldl_u8_max_elem (l : list byte) : ∀ b, foldl Np.u8_max b l ∈ b :: l.
Proof.
  induction l as [|y l IH]; intros b; cbn [foldl]; [apply list_elem_of_here|].
  pose proof (IH (Np.u8_max b y)) as Hin.
  apply elem_of_cons in Hin as [Heq|Hin].
  - rewrite Heq. unfold Np.u8_max.
    destruct (Np.u8 b <? Np.u8 y); [right; left | left].
  - right. right. exact Hin.
Qed.

Lemma stretched_value `{Externals} (lo hi x : byte) :
  Np.u8 lo ≤ Np.u8 x ≤ Np.u8 hi → lo ≠ hi →
  Np.u8 (stretched lo hi x) =
  (Np.u8 x - Np.u8 lo) * 255 / (Np.u8 hi - Np.u8 lo).
Proof.
  intros Hx Hne. rewrite stretched_exact by done.
  assert (Hlt : Np.u8 lo < Np.u8 hi).
  { destruct (Z.eq_dec (Np.u8 lo) (Np.u8 hi)) as [Heq|]; [|lia].
    by apply u8_inj in Heq. }
  apply u8_to_u8. split.
  - apply Z.div_pos; lia.
  - apply Z.div_lt_upper_bound; nia.
Qed.

(** X14. On a buffer whose bytes are not all equal, the stretch of line 147
    never wraps in [uint8], sends the minimum (a byte of the buffer) to 0 and
    the maximum (another one) to 255, and preserves the order of the
    samples. *)
Theorem stretch_spans_and_preserves_order (E : Externals) (b : byte)
    (rest : list byte) :
  let lo := foldl Np.u8_min b rest in
  let hi := foldl Np.u8_max b rest in
  lo ≠ hi →
  lo ∈ b :: rest ∧ hi ∈ b :: rest ∧
  stretched lo hi lo = "000"%byte ∧ stretched lo hi hi = "255"%byte ∧
  (∀ x, x ∈ b :: rest → Np.u8 (Np.u8_sub x lo) = Np.u8 x - Np.u8 lo) ∧
  (∀ x y, x ∈ b :: rest → y ∈ b :: rest → Np.u8 x ≤ Np.u8 y →
          Np.u8 (stretched lo hi x) ≤ Np.u8 (stretched lo hi y)).
Proof.
  intros lo hi Hne.
  destruct (foldl_u8_min_le rest b) as [Hlo_b Hlo].
  destruct (foldl_u8_max_ge rest b) as [Hhi_b Hhi].
  fold lo in Hlo_b, Hlo. fold hi in Hhi_b, Hhi.
  assert (Hbounds : ∀ x, x ∈ b :: rest → Np.u8 lo ≤ Np.u8 x ≤ Np.u8 hi).
  { intros x Hx. apply elem_of_cons in Hx as [->|Hx]; [lia|].
    rewrite Forall_forall in Hlo, Hhi. split; [by apply Hlo | by apply Hhi]. }
  assert (Hlo_in : lo ∈ b :: rest) by apply foldl_u8_min_elem.
  assert (Hhi_in : hi ∈ b :: rest) by apply foldl_u8_max_elem.
  assert (Hlt : Np.u8 lo < Np.u8 hi).
  { pose proof (Hbounds lo Hlo_in).
    destruct (Z.eq_dec (Np.u8 lo) (Np.u8 hi)) as [Heq|]; [|lia].
    by apply u8_inj in Heq. }
  split_and!; try done.
  - apply u8_inj. rewrite stretched_value; [|lia|done].
    rewrite Z.sub_diag. reflexivity.
  - apply u8_inj. rewrite stretched_value; [|lia|done].
    rewrite Z.mul_comm, Z.div_mul by lia. reflexivity.
  - intros x Hx. apply u8_u8_sub. by apply Hbounds.
  - intros x y Hx Hy Hxy.
    rewrite (stretched_value lo hi x); [|by apply Hbounds|done].
    rewrite (stretched_value lo hi y); [|by apply Hbounds|done].
    apply Z.div_le_mono; lia.
Qed.

Lemma stretch_spans_and_preserves_order_witness :
  @stretched (Sample.externals (Ok ∅)) "a" "c" "a" = "000"%byte ∧
  @stretched (Sample.externals (Ok ∅)) "a" "c" "c" = "255"%byte.
Proof.
  destruct (stretch_spans_and_preserves_order (Sample.externals (Ok ∅))
              "b"%byte ["a"; "c"]%byte ltac:(discriminate))
    as (_ & _ & Hlo & Hhi & _).
  split; [exact Hlo | exact Hhi].
Defined.

(** ** Further properties: a response of another shape *)

Lemma omap_decoded_invalid `{Externals} (images : list json) :
  Forall (λ img_info, invalid_image_info img_info = true) images →
  omap decoded images = [].
Proof.
  intros Hall. apply omap_decoded_nil.
  eapply Forall_impl; [exact Hall|]. apply decoded_invalid.
Qed.

(** X15. What [generate] does with the ["images"] entry of the response,
    by the kind of value: a falsy value (null, false, 0, an empty string, list
    or dict) gives the error for no images; a list goes through the loop; a
    non-empty string or dict is iterated, its characters or keys are invalid
    descriptors, and the error is that no image could be processed; a number
    other than zero or [true] is not iterable, and the [TypeError] leaves
    [generate] as it is, not wrapped in a generation error. *)
Theorem images_entry_by_kind (E : Externals) (self : FalAPIFluxNode)
    (prompt image_size : string) (num_inference_steps : Z)
    (guidance_scale : float) (num_images : Z) (seed : option Z)
    (kwargs result : gmap string json) (images : json) :
  api_key_missing self = false →
  fal_client_submit "fal-ai/flux-lora"
    (arguments prompt image_size num_inference_steps guidance_scale
       num_images seed kwargs) = Ok result →
  result !! "images" = Some images →
  value (generate self prompt image_size num_inference_steps guidance_scale
           num_images seed kwargs) =
  if truthy images then
    match images with
    | JList descriptors =>
        match omap decoded descriptors with
        | [] => Raise (new_exn RuntimeError
                         "Failed to process any of the generated images.")
        | output_images => Ok output_images
        end
    | JStr _ | JDict _ =>
        Raise (new_exn RuntimeError
                 "Failed to process any of the generated images.")
    | _ => Raise (new_exn TypeError "object is not iterable")
    end
  else Raise (new_exn RuntimeError "No images were generated by the API.").
Proof.
  intros Hkey Hsubmit Himages.
  rewrite (generate_on_response _ _ _ _ _ _ _ _ result Hkey Hsubmit).
  unfold no_images. rewrite Himages. cbn [default from_option id].
  destruct (truthy images); cbn [negb]; [|reflexivity].
  destruct images as [| | | |s|l|d]; cbn [py_iter]; try reflexivity.
  - rewrite omap_decoded_invalid; [reflexivity|].
    apply Forall_fmap, Forall_forall. intros c _. reflexivity.
  - rewrite omap_decoded_invalid; [reflexivity|].
    apply Forall_fmap, Forall_forall. intros kv _. reflexivity.
Qed.

Lemma images_entry_by_kind_witness :
  value (@generate (Sample.externals (Ok {[ "images" := JInt 4 ]}))
           Sample.node "a cat" "square_hd" 28 (Np.f64_of_Z 3) 4 None ∅) =
  Raise (new_exn TypeError "object is not iterable").
Proof.
  assert (Himages : ({[ "images" := JInt 4 ]} : gmap string json) !! "images"
                    = Some (JInt 4)).
  { vm_compute. reflexivity. }
  rewrite (images_entry_by_kind
             (Sample.externals (Ok {[ "images" := JInt 4 ]}))
             Sample.node "a cat" "square_hd" 28 (Np.f64_of_Z 3) 4 None ∅
             {[ "images" := JInt 4 ]} (JInt 4) eq_refl eq_refl Himages).
  reflexivity.
Defined.

(** ** Further properties: the scaling to the unit interval *)

Lemma sample_of_unit_of_sample (v : byte) :
  sample_of_unit (unit_of_sample v) = v.
Proof. destruct v; vm_compute; reflexivity. Qed.

(** X16. The tensor of an RGB image holds, sample for sample and in the
    order of the image, the float32 quotient of the sample by 255: 0 becomes
    0.0 and 255 becomes 1.0 exactly, and two different samples never give the
    same value, so the scaling loses nothing. *)
Theorem tensor_values_faithful (E : Externals) (img : PIL.Image)
    (samples : list byte) :
  PIL.mode img = "RGB" → Image_load img = Ok samples →
  ∃ t, value (to_tensor img) = Ok t ∧
    Np.data t = unit_of_sample <$> samples ∧
    length (Np.data t) = length samples ∧
    unit_of_sample "000" = S754_zero false ∧
    unit_of_sample "255" = Np.f32_of_Z 1 ∧
    (∀ x y, unit_of_sample x = unit_of_sample y → x = y).
Proof.
  intros Hmode Hload.
  eexists. split; [by apply to_tensor_rgb_value with (samples := samples)|].
  split_and!.
  - reflexivity.
  - cbn [Np.astype_float32_div255 Np.data]. by rewrite length_fmap.
  - reflexivity.
  - reflexivity.
  - intros x y Hxy.
    rewrite <- (sample_of_unit_of_sample x), <- (sample_of_unit_of_sample y).
    by rewrite Hxy.
Qed.

Lemma tensor_values_faithful_witness :
  ∃ t,
    value (@to_tensor (Sample.externals (Ok ∅))
             (PIL.MkImage "RGB" (1, 1)%nat
                (PIL.Deferred ["R"; "001"; "001"; "255"; "000"; "128"]%byte)))
      = Ok t ∧
    Np.data t = unit_of_sample <$> ["255"; "000"; "128"]%byte.
Proof.
  destruct (tensor_values_faithful (Sample.externals (Ok ∅))
              (PIL.MkImage "RGB" (1, 1)%nat
                 (PIL.Deferred ["R"; "001"; "001"; "255"; "000"; "128"]%byte))
              ["255"; "000"; "128"]%byte eq_refl eq_refl)
    as (t & Ht & Hdata & _).
  exists t. split; [exact Ht | exact Hdata].
Defined.
